(** * regrid.py: regridding a gridded time series onto a target grid

    A shallow embedding of [regrid_data] (src/regrid.py, lines 18-74) and
    of the numpy / xarray operations it calls, followed by the properties
    of the specification that concern it.

    Layout of the file:
    - [Float64]: IEEE binary64 cells (Rocq's primitive floats);
    - [NumPy]: n-dimensional arrays (shape and row-major buffer), indexing,
      [squeeze], broadcasting, [arr[..., i] = v], sorting;
    - [SciPy]: the linear [interp1d] that [interp] applies axis by axis;
    - [XArray]: labelled arrays, [sel], [interp], arithmetic with a raw array;
    - the object store and [regrid_data] itself, statement by statement,
      and the same computation as a function of the two grids;
    - the vocabulary of the specification and the grids of its examples;
    - lemmas on cells, arrays, interpolation and the run of the program;
    - the properties of the specification, C1 to C10;
    - further properties of [regrid_data], X2 to X12.

    Conventions. Timestamps are integers. A grid's payload is addressed in
    the order of its [dims]; the theorems are about grids stored as (time,
    latitude, longitude), the order in which the specification lists the
    axes; X11 and X12 are about a source stored as (time, longitude,
    latitude).
    The behaviour of the library calls follows xarray, numpy and scipy:
    [interp] sorts the source along each coordinate, refuses a source
    coordinate with a repeated value, interpolates one axis after the other
    with scipy's line formula and fills the points outside the source's
    bounds with NaN. *)

From Stdlib Require Import ZArith List String Floats Lia Bool.
From stdpp Require Import base option list.
Import ListNotations.


(* ===================================================================== *)
(** * IEEE binary64 cells *)
(* ===================================================================== *)

Module Float64.
#[local] Open Scope float_scope.

(** A missing cell is the not-a-number marker ([np.isnan]). *)
Definition isnan (x : float) : bool := is_nan x.

(** A cell that holds an ordinary number: neither NaN nor an infinity. *)
Definition isfinite (x : float) : bool := is_finite x.

(** numpy's sorting order on floats: [<], with NaN after everything else
    ([np.sort], [np.searchsorted]). *)
Definition np_lt (a b : float) : bool :=
  (a <? b) || (negb (isnan a) && isnan b).

(** Two cells hold the same value: both missing, or numerically equal
    ([np.array_equal(..., equal_nan=True)] on one cell; [0.0] and [-0.0]
    are the same value). *)
Definition same_value (a b : float) : bool :=
  (isnan a && isnan b) || (a =? b).

End Float64.

(* ===================================================================== *)
(** * Python values shared by the layers below *)
(* ===================================================================== *)

(** The three coordinate axes a grid is labelled with. *)
Inductive dim := Time | Latitude | Longitude.

Definition dim_eqb (a b : dim) : bool :=
  match a, b with
  | Time, Time | Latitude, Latitude | Longitude, Longitude => true
  | _, _ => false
  end.

(** The exceptions the modelled calls raise, by what went wrong (the Python
    class is given with each). *)
Inductive exn :=
| MissingAxis (d : dim)
    (* AttributeError ([da.time]), KeyError ([da.coords[...]], [sel]) or
       ValueError ("Dimensions {...} do not exist", [interp]): the array
       has no such coordinate axis *)
| EmptyAxis (d : dim)
    (* IndexError ([time[0]] on an empty axis) or ValueError (zero-size
       array to a reduction, inside [interp]) *)
| NotUnique (d : dim)
    (* pandas InvalidIndexError inside [interp]: "Reindexing only valid
       with uniquely valued Index objects" *)
| BroadcastError
    (* numpy ValueError: "operands could not be broadcast together" or
       "could not broadcast input array from shape ... into shape ..." *)
| DimensionalityError
    (* xarray ValueError: the data has not one dimension per name *)
| IndexError
    (* numpy IndexError: index out of bounds for the axis *)
| KeyError
    (* [sel]: the label is not a value of the coordinate *)
| TypeError
    (* unsupported operand types for [+]: NoneType and str *)
| BadObject.
    (* the reference does not point to an object of the expected kind *)

Inductive result (A : Type) :=
| Ok (a : A)
| Raise (e : exn).
Arguments Ok {A} a.
Arguments Raise {A} e.

#[global] Instance result_ret : MRet result := fun A a => Ok a.
#[global] Instance result_bind : MBind result := fun A B f r =>
  match r with
  | Ok a => f a
  | Raise e => Raise e
  end.

Definition from_option {A} (e : exn) (o : option A) : result A :=
  match o with
  | Some a => Ok a
  | None => Raise e
  end.

(* ===================================================================== *)
(** * numpy arrays *)
(* ===================================================================== *)

Module NumPy.
Import Float64.
#[local] Open Scope float_scope.
#[local] Open Scope nat_scope.

(** An array is its shape and its cells in row-major (C) order. *)
Record ndarray := NdArray { shape : list nat; buf : list float }.

(** Number of cells of a shape. *)
Definition size (s : list nat) : nat := fold_right Nat.mul 1 s.

(** Offset of the cell at multi-index [idx] in the buffer. *)
Fixpoint ravel (s idx : list nat) : nat :=
  match s, idx with
  | _ :: s', i :: idx' => i * size s' + ravel s' idx'
  | _, _ => 0
  end.

(** All multi-indices of a shape, in buffer order ([np.ndindex]). *)
Fixpoint indices (s : list nat) : list (list nat) :=
  match s with
  | [] => [[]]
  | n :: s' => flat_map (fun i => map (cons i) (indices s')) (seq 0 n)
  end.

(** [idx] addresses a cell of an array of shape [s]. *)
Definition in_bounds (s idx : list nat) : Prop := Forall2 lt idx s.

(** [a[idx]] for a full multi-index. *)
Definition item (a : ndarray) (idx : list nat) : float :=
  nth (ravel (shape a) idx) (buf a) nan.

(** The array of shape [s] whose cell at [idx] is [f idx]. *)
Definition tabulate (s : list nat) (f : list nat -> float) : ndarray :=
  NdArray s (map f (indices s)).

(** [np.empty(shape)]: the cells are whatever the memory held, [uninit]. *)
Definition empty (uninit : list nat -> float) (s : list nat) : ndarray :=
  tabulate s uninit.

(** [a.squeeze()]: the axes of length one are removed, the cells stay. *)
Definition squeeze (a : ndarray) : ndarray :=
  NdArray (List.filter (fun n => negb (n =? 1)) (shape a)) (buf a).

(** [c * a] for a Python number [c]. *)
Definition scalar_mul (c : float) (a : ndarray) : ndarray :=
  NdArray (shape a) (map (fun x => (c * x)%float) (buf a)).

(** Broadcasting of two shapes, from the trailing axis: lengths must be
    equal, or one of them 1; a shorter shape counts as padded with 1s in
    front. On reversed shapes. *)
Fixpoint broadcast_rev (r1 r2 : list nat) : option (list nat) :=
  match r1, r2 with
  | [], r => Some r
  | r, [] => Some r
  | a :: r1', b :: r2' =>
      match broadcast_rev r1' r2' with
      | None => None
      | Some r =>
          if a =? b then Some (a :: r)
          else if a =? 1 then Some (b :: r)
          else if b =? 1 then Some (a :: r)
          else None
      end
  end.

Definition broadcast_shapes (s1 s2 : list nat) : option (list nat) :=
  option_map (@rev nat) (broadcast_rev (rev s1) (rev s2)).

(** The index into an operand of shape [s] that the cell [idx] of the
    broadcast result reads: leading axes the operand lacks are dropped and
    an axis of length 1 is read at 0. *)
Definition bcast_index (s idx : list nat) : list nat :=
  zip_with (fun n i => if n =? 1 then 0 else i) s
           (skipn (length idx - length s) idx).

(** [np.broadcast_to(a, s)]. *)
Definition broadcast_to (s : list nat) (a : ndarray) : option ndarray :=
  match broadcast_shapes (shape a) s with
  | Some s' =>
      if decide (s' = s)
      then Some (tabulate s (fun idx => item a (bcast_index (shape a) idx)))
      else None
  | None => None
  end.

(** [a + b] with broadcasting. *)
Definition add (a b : ndarray) : result ndarray :=
  match broadcast_shapes (shape a) (shape b) with
  | Some s =>
      Ok (tabulate s (fun idx =>
            (item a (bcast_index (shape a) idx)
             + item b (bcast_index (shape b) idx))%float))
  | None => Raise BroadcastError
  end.

(** Cell [k] along axis [p] of every line: [a[:, ..., k, ..., :]], the axis
    is dropped. *)
Definition insert_at (p k : nat) (idx : list nat) : list nat :=
  firstn p idx ++ k :: skipn p idx.

Definition take_along (p k : nat) (a : ndarray) : ndarray :=
  tabulate (delete p (shape a)) (fun idx => item a (insert_at p k idx)).

(** The cells at positions [ks] along axis [p] ([np.take(a, ks, axis=p)]):
    the axis stays, with one entry per position. *)
Definition pick_along (p : nat) (ks : list nat) (a : ndarray) : ndarray :=
  tabulate (<[p := length ks]> (shape a))
           (fun idx => item a (<[p := nth (nth p idx 0) ks 0]> idx)).

(** In an assignment the value may have more axes than the slot as long as
    the extra leading ones have length 1. *)
Fixpoint strip_leading_ones (k : nat) (s : list nat) : list nat :=
  match s with
  | 1 :: s' => if k <? length s then strip_leading_ones k s' else s
  | _ => s
  end.

(** [arr[..., i] = v]: [v] is broadcast to the shape of the slot (all axes
    of [arr] but the last) and written at index [i] of the last axis; the
    other cells keep their content. *)
Definition setitem_last (arr : ndarray) (i : nat) (v : ndarray) : result ndarray :=
  let slot := removelast (shape arr) in
  if List.last (shape arr) 0 <=? i then Raise IndexError
  else
    match broadcast_to slot (NdArray (strip_leading_ones (length slot) (shape v)) (buf v)) with
    | Some vb =>
        Ok (tabulate (shape arr) (fun idx =>
              if List.last idx 0 =? i then item vb (removelast idx) else item arr idx))
    | None => Raise BroadcastError
    end.

(** numpy's stable [argsort] of a float axis (NaN last): insertion of each
    index, from the right, before the first index whose key is not smaller. *)
Fixpoint insert_sorted (xs : list float) (i : nat) (l : list nat) : list nat :=
  match l with
  | [] => [i]
  | j :: l' =>
      if np_lt (nth j xs nan) (nth i xs nan) then j :: insert_sorted xs i l'
      else i :: l
  end.

Definition argsort (xs : list float) : list nat :=
  fold_right (insert_sorted xs) [] (seq 0 (length xs)).

(** [np.searchsorted(xs, v)] (side left) on a sorted [xs]: the number of
    entries that sort before [v]. *)
Fixpoint searchsorted (xs : list float) (v : float) : nat :=
  match xs with
  | [] => 0
  | x :: xs' => if np_lt x v then S (searchsorted xs' v) else 0
  end.

(** [np.clip(v, lo, hi)] is [minimum(maximum(v, lo), hi)]. *)
Definition clip (v lo hi : Z) : Z := Z.min (Z.max v lo) hi.

(** Python indexing of an axis of length [n]: a negative index counts from
    the end. *)
Definition py_index (n : nat) (i : Z) : nat :=
  Z.to_nat (if (i <? 0)%Z then i + Z.of_nat n else i).

End NumPy.

(* ===================================================================== *)
(** * scipy's linear [interp1d] *)
(* ===================================================================== *)

Module SciPy.
Import Float64 NumPy.
#[local] Open Scope float_scope.

(** The value on the line through [(x_lo, y_lo)] and [(x_hi, y_hi)] at
    [x_new], in the order [interp1d] computes it:
    [slope = (y_hi - y_lo) / (x_hi - x_lo)],
    [y_new = slope * (x_new - x_lo) + y_lo]. *)
Definition linear (x_lo x_hi y_lo y_hi x_new : float) : float :=
  let slope := (y_hi - y_lo) / (x_hi - x_lo) in
  slope * (x_new - x_lo) + y_lo.

(** The two neighbours [lo], [hi = lo + 1] of [x_new] among the sorted
    [xs]: [searchsorted], clipped to [1 .. len(xs) - 1]. *)
Definition neighbours (xs : list float) (x_new : float) : nat * nat :=
  let n := length xs in
  let hi := clip (Z.of_nat (searchsorted xs x_new)) 1 (Z.of_nat n - 1) in
  (py_index n (hi - 1), py_index n hi).

(** [x_new < x[0]] or [x_new > x[-1]]: with [bounds_error=False] the cell
    is filled with NaN. *)
Definition out_of_bounds (xs : list float) (x_new : float) : bool :=
  (x_new <? hd nan xs) || (List.last xs nan <? x_new).

(** One interpolated cell from the line of cells [y] along the axis. *)
Definition interp_cell (xs : list float) (y : nat -> float) (x_new : float) : float :=
  let '(lo, hi) := neighbours xs x_new in
  let y_new := linear (nth lo xs nan) (nth hi xs nan) (y lo) (y hi) x_new in
  if out_of_bounds xs x_new then nan else y_new.

(** [interp1d(xs, a, axis=p, kind="linear", bounds_error=False)(x_new)]:
    every line of [a] along axis [p] is interpolated at the points [x_new]. *)
Definition interp1d (p : nat) (xs x_new : list float) (a : ndarray) : ndarray :=
  tabulate (<[p := length x_new]> (shape a))
           (fun idx =>
              interp_cell xs (fun k => item a (<[p := k]> idx))
                          (nth (nth p idx 0%nat) x_new nan)).

End SciPy.

(* ===================================================================== *)
(** * xarray's labelled arrays *)
(* ===================================================================== *)

Module XArray.
Import Float64 NumPy SciPy.

(** [xr.DataArray]: a name, the names of the axes of [data] in order, and
    the coordinate of each axis; a coordinate the array does not have is
    [None]. *)
Record DataArray := mkDataArray {
  name : option string;
  dims : list dim;
  time : option (list Z);
  latitude : option (list float);
  longitude : option (list float);
  data : ndarray
}.

(** [da.time], [da.latitude], [da.longitude], and [da.coords[...]]. *)
Definition get_time (da : DataArray) : result (list Z) :=
  from_option (MissingAxis Time) (time da).

Definition get_latitude (da : DataArray) : result (list float) :=
  from_option (MissingAxis Latitude) (latitude da).

Definition get_longitude (da : DataArray) : result (list float) :=
  from_option (MissingAxis Longitude) (longitude da).

Fixpoint index_of (d : dim) (l : list dim) : option nat :=
  match l with
  | [] => None
  | d' :: l' => if dim_eqb d d' then Some 0 else option_map S (index_of d l')
  end.

(** The position of the axis named [d] in [data]. *)
Definition axis_of (d : dim) (da : DataArray) : result nat :=
  from_option (MissingAxis d) (index_of d (dims da)).

(** Positions of the label [t] in a time coordinate. *)
Fixpoint positions_from (i : nat) (t : Z) (ts : list Z) : list nat :=
  match ts with
  | [] => []
  | x :: ts' =>
      if (x =? t)%Z then i :: positions_from (S i) t ts'
      else positions_from (S i) t ts'
  end.

Definition positions (t : Z) (ts : list Z) : list nat := positions_from 0 t ts.

(** [da.sel(time=t)]: selection by label. A label that occurs once selects
    that slab and the time axis is dropped ([time] stays as a scalar
    coordinate); a label that occurs several times selects all of them and
    the axis stays. *)
Definition sel_time (da : DataArray) (t : Z) : result DataArray :=
  ts ← get_time da;
  p ← axis_of Time da;
  match positions t ts with
  | [] => Raise KeyError
  | [k] =>
      Ok (mkDataArray (name da) (delete p (dims da)) (Some [t])
                      (latitude da) (longitude da) (take_along p k (data da)))
  | ks =>
      Ok (mkDataArray (name da) (dims da) (Some (map (fun _ => t) ks))
                      (latitude da) (longitude da) (pick_along p ks (data da)))
  end.

(** [da.sortby(d)] for a spatial axis: coordinate and data are reordered
    by the ascending coordinate. *)
Definition sortby (d : dim) (da : DataArray) : result DataArray :=
  p ← axis_of d da;
  match d with
  | Latitude =>
      xs ← get_latitude da;
      let perm := argsort xs in
      Ok (mkDataArray (name da) (dims da) (time da)
                      (Some (map (fun i => nth i xs nan) perm)) (longitude da)
                      (pick_along p perm (data da)))
  | Longitude =>
      xs ← get_longitude da;
      let perm := argsort xs in
      Ok (mkDataArray (name da) (dims da) (time da)
                      (latitude da) (Some (map (fun i => nth i xs nan) perm))
                      (pick_along p perm (data da)))
  | Time => Ok da
  end.

(** Two entries of the coordinate are equal. *)
Fixpoint has_duplicates (xs : list float) : bool :=
  match xs with
  | [] => false
  | x :: xs' => existsb (same_value x) xs' || has_duplicates xs'
  end.

(** The narrowing of the source to the range of the new points, which
    [interp] does first for the linear method: the minimum of the new points
    is taken (an error on an empty axis) and looked up in the source's index
    (an error when the index has duplicates). The narrowing itself does not
    change which neighbours a point has, and is not modelled. *)
Definition localize (d : dim) (xs new_x : list float) : result unit :=
  match new_x with
  | [] => Raise (EmptyAxis d)
  | _ :: _ => if has_duplicates xs then Raise (NotUnique d) else Ok tt
  end.

Definition nonempty (d : dim) (xs : list float) : result unit :=
  match xs with
  | [] => Raise (EmptyAxis d)
  | _ :: _ => Ok tt
  end.

(** [da.interp(latitude=new_lat, longitude=new_lon)] with the defaults
    [method="linear"], [assume_sorted=False]: the array is sorted by both
    coordinates, then interpolated along latitude and along longitude, one
    axis after the other; the axes keep their positions and take the new
    coordinates. *)
Definition interp (da : DataArray) (new_lat new_lon : list float) : result DataArray :=
  _ ← axis_of Latitude da;
  _ ← axis_of Longitude da;
  da ← sortby Latitude da;
  da ← sortby Longitude da;
  lat ← get_latitude da;
  lon ← get_longitude da;
  _ ← localize Latitude lat new_lat;
  _ ← localize Longitude lon new_lon;
  _ ← nonempty Latitude lat;
  _ ← nonempty Longitude lon;
  plat ← axis_of Latitude da;
  plon ← axis_of Longitude da;
  let a1 := interp1d plat lat new_lat (data da) in
  let a2 := interp1d plon lon new_lon a1 in
  Ok (mkDataArray (name da) (dims da) (time da) (Some new_lat) (Some new_lon) a2).

(** [da + b] for a raw numpy array [b]: the data are added with numpy's
    broadcasting, by position; names and coordinates are those of [da]. *)
Definition add_raw (da : DataArray) (b : ndarray) : result DataArray :=
  d ← NumPy.add (data da) b;
  if (length (shape d) =? length (dims da))%nat
  then Ok (mkDataArray (name da) (dims da) (time da) (latitude da) (longitude da) d)
  else Raise DimensionalityError.

End XArray.

(* ===================================================================== *)
(** * The object store and the program *)
(* ===================================================================== *)

Import Float64 NumPy SciPy XArray.

(** Python objects live in a store and are passed by reference. The two
    kinds of object [regrid_data] handles: labelled arrays (its arguments)
    and raw numpy arrays (the buffer it fills). *)
Inductive pyobj :=
| PyDataArray (da : DataArray)
| PyNdarray (a : ndarray).

Abbreviation loc := nat (only parsing).
Abbreviation heap := (list pyobj).

(** A computation reads and writes the store and returns or raises. *)
Definition M (A : Type) : Type := heap -> result A * heap.

#[global] Instance M_ret : MRet M := fun A a h => (Ok a, h).
#[global] Instance M_bind : MBind M := fun A B f m h =>
  match m h with
  | (Ok a, h') => f a h'
  | (Raise e, h') => (Raise e, h')
  end.

(** A computation that touches no object. *)
Definition lift {A} (r : result A) : M A := fun h => (r, h).

Definition load_DataArray (l : loc) : M DataArray := fun h =>
  match h !! l with
  | Some (PyDataArray da) => (Ok da, h)
  | _ => (Raise BadObject, h)
  end.

Definition load_ndarray (l : loc) : M ndarray := fun h =>
  match h !! l with
  | Some (PyNdarray a) => (Ok a, h)
  | _ => (Raise BadObject, h)
  end.

(** A new object, at a reference no object had. *)
Definition alloc (o : pyobj) : M loc := fun h => (Ok (length h), h ++ [o]).

(** The object at [l] is replaced. *)
Definition store (l : loc) (o : pyobj) : M unit := fun h => (Ok tt, <[l := o]> h).

(** [arr[..., i] = v] on the array object at [l], in place. *)
Definition setitem_last_at (l : loc) (i : nat) (v : ndarray) : M unit :=
  arr ← load_ndarray l;
  arr' ← lift (setitem_last arr i v);
  store l (PyNdarray arr').

(** [for i, x in enumerate(l): body], counting from [i]. *)
Fixpoint for_enumerate {A} (i : nat) (l : list A) (body : nat -> A -> M unit) : M unit :=
  match l with
  | [] => mret tt
  | x :: l' => body i x ≫= fun _ => for_enumerate (S i) l' body
  end.

(** [a + b] where [a] may be [None] and [b] is a string. *)
Definition str_add (a : option string) (b : string) : result string :=
  match a with
  | Some s => Ok (s ++ b)%string
  | None => Raise TypeError
  end.

(** [time[0]]. *)
Definition first_label (ts : list Z) : result Z :=
  from_option (EmptyAxis Time) (head ts).

(** [xr.Dataset] with one data variable: its name, the names of its axes,
    a reference to its array (the constructor does not copy), and the three
    coordinates. *)
Record Dataset := mkDataset {
  var_name : string;
  var_dims : list dim;
  var_data : loc;
  ds_latitude : list float;
  ds_longitude : list float;
  ds_time : list Z
}.

Section Regrid.

(** What the memory handed out by [np.empty] holds. *)
Variable uninit : list nat -> float.

(** Lines 49-56, the work on one timestep: the source slab at [time] is
    interpolated onto the target coordinates and the zero-scaled,
    squeezed reference slab is added. No object of the store is written. *)
Definition regrid_step (src first_date_data : DataArray)
    (target_latitude target_longitude : list float) (time : Z) : result ndarray :=
  original ← sel_time src time;
  regridded ← interp original target_latitude target_longitude;
  regridded ← add_raw regridded (scalar_mul 0%float (squeeze (data first_date_data)));
  Ok (data regridded).

(** [regrid_data(input_data, target_data)], lines 38-74. The progress bar
    of line 48 writes to the terminal only and is left out. *)
Definition regrid_data (input_data target_data : loc) : M Dataset :=
  (* 38: first_date_data = target_data.sel(time=target_data.time[0]) *)
  tgt ← load_DataArray target_data;
  tgt_time ← lift (get_time tgt);
  t0 ← lift (first_label tgt_time);
  first_date_data ← lift (sel_time tgt t0);
  (* 39-40 *)
  target_latitude ← lift (get_latitude first_date_data);
  target_longitude ← lift (get_longitude first_date_data);
  (* 43-45: regridded_array = np.empty(shape=(len(..), len(..), len(input_data.time))) *)
  src ← load_DataArray input_data;
  src_time ← lift (get_time src);
  regridded_array ← alloc (PyNdarray (empty uninit
      [length target_latitude; length target_longitude; length src_time]));
  (* 48-57: for i, time in enumerate(input_data.time) *)
  _ ← for_enumerate 0 src_time (fun i time =>
      src ← load_DataArray input_data;
      regridded ← lift (regrid_step src first_date_data
                          target_latitude target_longitude time);
      (* 57: regridded_array[..., i] = regridded *)
      setitem_last_at regridded_array i regridded);
  (* 60-73: the dataset *)
  src ← load_DataArray input_data;
  var ← lift (str_add (name src) "_REGRIDDED");
  tgt ← load_DataArray target_data;
  lat ← lift (get_latitude tgt);
  lon ← lift (get_longitude tgt);
  src ← load_DataArray input_data;
  tm ← lift (get_time src);
  mret (mkDataset var [Latitude; Longitude; Time] regridded_array lat lon tm).

(** ** The program as a function of the two grids

    The same computation without the store: what lines 38-45 read off the
    two grids, the loop as a fold over the timesteps that threads the
    buffer, and the assembly of the result. [regrid_data_run] below
    shows that [regrid_data] computes exactly this. *)

Definition prelude (src tgt : DataArray)
  : result (DataArray * list float * list float * list Z) :=
  tgt_time ← get_time tgt;
  t0 ← first_label tgt_time;
  first_date_data ← sel_time tgt t0;
  target_latitude ← get_latitude first_date_data;
  target_longitude ← get_longitude first_date_data;
  src_time ← get_time src;
  Ok (first_date_data, target_latitude, target_longitude, src_time).

Fixpoint fill (src first_date_data : DataArray) (tlat tlon : list float)
    (i : nat) (times : list Z) (arr : ndarray) : result unit * ndarray :=
  match times with
  | [] => (Ok tt, arr)
  | t :: times' =>
      match regrid_step src first_date_data tlat tlon t with
      | Raise e => (Raise e, arr)
      | Ok v =>
          match setitem_last arr i v with
          | Raise e => (Raise e, arr)
          | Ok arr' => fill src first_date_data tlat tlon (S i) times' arr'
          end
      end
  end.

Definition finish (src tgt : DataArray) (r : loc) : result Dataset :=
  var ← str_add (name src) "_REGRIDDED";
  lat ← get_latitude tgt;
  lon ← get_longitude tgt;
  tm ← get_time src;
  Ok (mkDataset var [Latitude; Longitude; Time] r lat lon tm).

(** The outcome of the call, and the buffer it leaves at reference [r]
    (none when the call fails before [np.empty]). *)
Definition regrid_pure (src tgt : DataArray) (r : loc)
  : result Dataset * option ndarray :=
  match prelude src tgt with
  | Raise e => (Raise e, None)
  | Ok (fdd, tlat, tlon, times) =>
      let '(res, arr) :=
        fill src fdd tlat tlon 0 times
             (empty uninit [length tlat; length tlon; length times]) in
      (res ≫= (fun _ => finish src tgt r), Some arr)
  end.

End Regrid.

(* ===================================================================== *)
(** * Vocabulary of the specification *)
(* ===================================================================== *)

(** The coordinate [xs] as [sortby] leaves it. *)
Definition sorted_coord (xs : list float) : list float :=
  map (fun i => nth i xs nan) (argsort xs).

(** What [interp] computes from a (latitude, longitude) slab [a] with
    coordinates [lat], [lon]: both axes sorted, then one linear pass along
    latitude and one along longitude. *)
Definition bilinear (lat lon : list float) (a : ndarray) (new_lat new_lon : list float) : ndarray :=
  interp1d 1 (sorted_coord lon) new_lon
    (interp1d 0 (sorted_coord lat) new_lat
       (pick_along 1 (argsort lon) (pick_along 0 (argsort lat) a))).

(** A LabeledGrid of the data model: the payload is stored in the order
    (time, latitude, longitude), the three coordinates are present and the
    shape of the payload is their lengths. *)
Record labeled_grid (da : DataArray) (ts : list Z) (lat lon : list float) : Prop := {
  lg_dims : dims da = [Time; Latitude; Longitude];
  lg_time : time da = Some ts;
  lg_latitude : latitude da = Some lat;
  lg_longitude : longitude da = Some lon;
  lg_shape : shape (data da) = [length ts; length lat; length lon]
}.

(** The source slab of the timestep of index [k], interpolated onto the
    target coordinates (line 50). *)
Definition interpolated (src : DataArray) (lat lon new_lat new_lon : list float) (k : nat) : ndarray :=
  bilinear lat lon (take_along 0 k (data src)) new_lat new_lon.

(** A valid source/target pair: two labelled grids; the target has a first
    timestamp [t0], which labels one slab only; the source's timestamps are
    distinct; the source's spatial coordinates are non-empty and without
    repeated values (in any order: [interp] sorts them); the target's
    spatial coordinates are non-empty. *)
Record valid_pair (src tgt : DataArray) (ts : list Z) (lat lon : list float)
    (t0 : Z) (tts : list Z) (tlat tlon : list float) : Prop := {
  vp_source : labeled_grid src ts lat lon;
  vp_target : labeled_grid tgt (t0 :: tts) tlat tlon;
  vp_times : List.NoDup ts;
  vp_first : ~ In t0 tts;
  vp_lat : lat <> [] /\ has_duplicates lat = false;
  vp_lon : lon <> [] /\ has_duplicates lon = false;
  vp_tlat : tlat <> [];
  vp_tlon : tlon <> []
}.

(** The squeeze of line 56 leaves the reference slab aligned with the
    interpolated slab: a target with a single longitude has a single
    latitude too. *)
Definition squeeze_safe (tlat tlon : list float) : Prop :=
  length tlon = 1 -> length tlat = 1.

(** The cell the loop stores at [(i, j)] for the timestep of index [k]: the
    interpolated cell plus zero times the reference cell. *)
Definition masked_cell (src tgt : DataArray) (lat lon tlat tlon : list float)
    (k i j : nat) : float :=
  let g := item (interpolated src lat lon tlat tlon k) [i; j] in
  let ref := item (data tgt) [0; i; j] in
  (g + 0 * ref)%float.

(** The (latitude, longitude) slab of a (latitude, longitude, time) array
    at time index [k], row by row. *)
Definition slab_at (arr : ndarray) (k : nat) : list (list float) :=
  match shape arr with
  | [n; m; _] => map (fun i => map (fun j => item arr [i; j; k]) (seq 0 m)) (seq 0 n)
  | _ => []
  end.

(** The end-to-end scenario of the specification: a 2 x 2 source with two
    timesteps (labelled 0 and 1) and a target on the same coordinates whose
    cell (1, 0) is missing. *)
Definition scenario_source (nm : option string) : DataArray :=
  mkDataArray nm [Time; Latitude; Longitude]
    (Some [0; 1]%Z) (Some [0; 1]%float) (Some [0; 1]%float)
    (NdArray [2; 2; 2] [1; 2; 3; 4; 5; 6; 7; 8]%float).

Definition scenario_target : DataArray :=
  mkDataArray (Some "PM25_VAND"%string) [Time; Latitude; Longitude]
    (Some [0]%Z) (Some [0; 1]%float) (Some [0; 1]%float)
    (NdArray [1; 2; 2] [1; 1; nan; 1]%float).

Definition scenario_store (nm : option string) : heap :=
  [PyDataArray (scenario_source nm); PyDataArray scenario_target].

(** The scenario's target with an infinite cell at (1, 0) in place of the
    missing one. *)
Definition infinite_target : DataArray :=
  mkDataArray (Some "PM25_VAND"%string) [Time; Latitude; Longitude]
    (Some [0]%Z) (Some [0; 1]%float) (Some [0; 1]%float)
    (NdArray [1; 2; 2] [1; 1; infinity; 1]%float).





(** The grid [src] with its time axis reordered: timestep [q] of the result
    is timestep [p[q]] of [src], label and slab ([src.isel(time=p)] on a
    grid stored in (time, latitude, longitude) order). *)
Definition permute_time (p : list nat) (src : DataArray) : DataArray :=
  mkDataArray (name src) (dims src)
    (option_map (fun ts => map (fun q => nth q ts 0%Z) p) (time src))
    (latitude src) (longitude src)
    (pick_along 0 p (data src)).

(** A strictly increasing coordinate. *)
Definition increasing (xs : list float) : Prop :=
  forall p q, p < q -> q < length xs -> (nth p xs nan <? nth q xs nan)%float = true.


(** A target on the scenario's coordinates with no missing cell. *)
Definition full_target : DataArray :=
  mkDataArray (Some "PM25_VAND"%string) [Time; Latitude; Longitude]
    (Some [0]%Z) (Some [0; 1]%float) (Some [0; 1]%float)
    (NdArray [1; 2; 2] [1; 1; 1; 1]%float).


(** A source with latitudes 0 and 49, longitudes 0 and 1, one timestep,
    the row of latitude 0 at 0 and the row of latitude 49 at 1; and a
    target on the same coordinates with no missing cell. *)
Definition stretched_source : DataArray :=
  mkDataArray (Some "PM25_CMIP"%string) [Time; Latitude; Longitude]
    (Some [0]%Z) (Some [0; 49]%float) (Some [0; 1]%float)
    (NdArray [1; 2; 2] [0; 0; 1; 1]%float).

Definition stretched_target : DataArray :=
  mkDataArray (Some "PM25_VAND"%string) [Time; Latitude; Longitude]
    (Some [0]%Z) (Some [0; 49]%float) (Some [0; 1]%float)
    (NdArray [1; 2; 2] [1; 1; 1; 1]%float).













(** A source with a time axis of length zero and no spatial axis at all. *)
Definition bare_source : DataArray :=
  mkDataArray (Some "PM25_CMIP"%string) [Time] (Some []) None None (NdArray [0] []).

(** A source whose latitudes are not monotonic: 0, 2, 1. One timestep; the
    rows are those of latitude 0, 2 and 1. *)
Definition zigzag_source : DataArray :=
  mkDataArray (Some "PM25_CMIP"%string) [Time; Latitude; Longitude]
    (Some [0]%Z) (Some [0; 2; 1]%float) (Some [0; 1]%float)
    (NdArray [1; 3; 2] [1; 2; 5; 6; 3; 4]%float).


(** ** Grids and notions of the further properties *)


(** The scenario's target followed by two more timesteps, whose slabs have
    other values and other missing cells. *)
Definition long_target : DataArray :=
  mkDataArray (Some "PM25_VAND"%string) [Time; Latitude; Longitude]
    (Some [0; 5; 9]%Z) (Some [0; 1]%float) (Some [0; 1]%float)
    (NdArray [3; 2; 2] [1; 1; nan; 1; nan; nan; 7; 7; 3; nan; 3; nan]%float).


(** A source with a single latitude, two longitudes and one timestep. *)
Definition single_latitude_source : DataArray :=
  mkDataArray (Some "PM25_CMIP"%string) [Time; Latitude; Longitude]
    (Some [0]%Z) (Some [0]%float) (Some [0; 1]%float)
    (NdArray [1; 1; 2] [3; 4]%float).

(** A strictly decreasing coordinate. *)
Definition decreasing (xs : list float) : Prop :=
  forall p q, p < q -> q < length xs -> (nth q xs nan <? nth p xs nan)%float = true.

(** The grid [src] with its latitude axis reversed, coordinate and rows
    ([src.isel(latitude=slice(None, None, -1))] on a grid stored in (time,
    latitude, longitude) order). *)
Definition flip_latitude (src : DataArray) : DataArray :=
  mkDataArray (name src) (dims src) (time src)
    (option_map (@rev float) (latitude src)) (longitude src)
    (pick_along 1 (rev (seq 0 (nth 1 (shape (data src)) 0))) (data src)).

(** The scenario's source stored from north to south: latitudes 1, 0. *)
Definition descending_source : DataArray :=
  mkDataArray (Some "PM25_CMIP"%string) [Time; Latitude; Longitude]
    (Some [0; 1]%Z) (Some [1; 0]%float) (Some [0; 1]%float)
    (NdArray [2; 2; 2] [3; 4; 1; 2; 7; 8; 5; 6]%float).


(** A grid whose payload is stored in the order (time, longitude,
    latitude). *)
Record lonlat_grid (da : DataArray) (ts : list Z) (lat lon : list float) : Prop := {
  ll_dims : dims da = [Time; Longitude; Latitude];
  ll_time : time da = Some ts;
  ll_latitude : latitude da = Some lat;
  ll_longitude : longitude da = Some lon;
  ll_shape : shape (data da) = [length ts; length lon; length lat]
}.

(** The scenario's source on three longitudes, stored as (time, longitude,
    latitude). *)
Definition lonlat_source : DataArray :=
  mkDataArray (Some "PM25_CMIP"%string) [Time; Longitude; Latitude]
    (Some [0]%Z) (Some [0; 1]%float) (Some [0; 1; 2]%float)
    (NdArray [1; 3; 2] [1; 3; 2; 4; 5; 6]%float).

(** A target with two latitudes and three longitudes, no cell missing. *)
Definition wide_target : DataArray :=
  mkDataArray (Some "PM25_VAND"%string) [Time; Latitude; Longitude]
    (Some [0]%Z) (Some [0; 1]%float) (Some [0; 1; 2]%float)
    (NdArray [1; 2; 3] [1; 1; 1; 1; 1; 1]%float).

(** The grid [src], stored as (time, longitude, latitude), with its payload
    rearranged in the order (time, latitude, longitude)
    ([src.transpose("time", "latitude", "longitude")]). *)
Definition transpose_latlon (src : DataArray) : DataArray :=
  mkDataArray (name src) [Time; Latitude; Longitude]
    (time src) (latitude src) (longitude src)
    (tabulate
       match shape (data src) with
       | [T; m; n] => [T; n; m]
       | s => s
       end
       (fun idx =>
          match idx with
          | [k; i; j] => item (data src) [k; j; i]
          | _ => nan
          end)).

(** The scenario's source stored as (time, longitude, latitude). *)
Definition lonlat_scenario_source : DataArray :=
  mkDataArray (Some "PM25_CMIP"%string) [Time; Longitude; Latitude]
    (Some [0; 1]%Z) (Some [0; 1]%float) (Some [0; 1]%float)
    (NdArray [2; 2; 2] [1; 3; 2; 4; 5; 7; 6; 8]%float).

(** [interp] on a slab stored as (longitude, latitude). *)
Definition bilinear_lonlat (lat lon : list float) (a : ndarray)
    (new_lat new_lon : list float) : ndarray :=
  interp1d 0 (sorted_coord lon) new_lon
    (interp1d 1 (sorted_coord lat) new_lat
       (pick_along 0 (argsort lon) (pick_along 1 (argsort lat) a))).

(** The cell stored at [(i, j)] for the timestep of index [k] when the
    source is stored as (time, longitude, latitude): the cell interpolated
    at latitude [tlat[j]] and longitude [tlon[i]], plus zero times the
    reference cell [(i, j)]. *)
Definition transposed_cell (src tgt : DataArray) (lat lon tlat tlon : list float)
    (k i j : nat) : float :=
  let g := item (interpolated (transpose_latlon src) lat lon tlat tlon k) [j; i] in
  let ref := item (data tgt) [0; i; j] in
  (g + 0 * ref)%float.

(* ===================================================================== *)
(** * Facts about binary64 cells *)
(* ===================================================================== *)

#[local] Open Scope float_scope.

Lemma Prim2SF_nan : Prim2SF nan = S754_nan.
Proof. reflexivity. Qed.

Lemma Prim2SF_zero : Prim2SF 0 = S754_zero false.
Proof. reflexivity. Qed.

Lemma SFcompare_refl x : x <> S754_nan -> SFcompare x x = Some Eq.
Proof.
  destruct x as [s|s| |s m e]; simpl; try congruence; intros _.
  - destruct s; reflexivity.
  - rewrite Z.compare_refl, Pos.compare_cont_refl. destruct s; reflexivity.
Qed.


Lemma isnan_false_spec x : isnan x = false <-> Prim2SF x <> S754_nan.
Proof.
  unfold isnan, is_nan. rewrite FloatAxioms.eqb_spec. unfold SFeqb. split.
  - intros H E. rewrite E in H. discriminate.
  - intros H. rewrite SFcompare_refl; auto.
Qed.

(** ** NaN is absorbing for the four operations *)

Lemma add_nan_r x : x + nan = nan.
Proof.
  apply Prim2SF_inj. rewrite add_spec, Prim2SF_nan.
  destruct (Prim2SF x); reflexivity.
Qed.

Lemma add_nan_l x : nan + x = nan.
Proof. apply Prim2SF_inj. rewrite add_spec, Prim2SF_nan. reflexivity. Qed.

Lemma sub_nan_r x : x - nan = nan.
Proof.
  apply Prim2SF_inj. rewrite sub_spec, Prim2SF_nan.
  destruct (Prim2SF x); reflexivity.
Qed.

Lemma sub_nan_l x : nan - x = nan.
Proof. apply Prim2SF_inj. rewrite sub_spec, Prim2SF_nan. reflexivity. Qed.

Lemma mul_nan_r x : x * nan = nan.
Proof.
  apply Prim2SF_inj. rewrite mul_spec, Prim2SF_nan.
  destruct (Prim2SF x); reflexivity.
Qed.

Lemma mul_nan_l x : nan * x = nan.
Proof. apply Prim2SF_inj. rewrite mul_spec, Prim2SF_nan. reflexivity. Qed.

Lemma div_nan_l x : nan / x = nan.
Proof. apply Prim2SF_inj. rewrite div_spec, Prim2SF_nan. reflexivity. Qed.

Lemma div_nan_r x : x / nan = nan.
Proof.
  apply Prim2SF_inj. rewrite div_spec, Prim2SF_nan.
  destruct (Prim2SF x); reflexivity.
Qed.

(** ** Zero times a cell, and adding the product *)



(** [0 * m] is NaN when [m] is NaN or an infinity. *)
Lemma zero_mul_not_finite m :
  isfinite m = false -> 0 * m = nan.
Proof.
  unfold isfinite, is_finite, is_infinity, is_nan.
  rewrite !FloatAxioms.eqb_spec, abs_spec. intros H.
  apply Prim2SF_inj. rewrite mul_spec, Prim2SF_zero, Prim2SF_nan.
  destruct (Prim2SF m) as [s|s| |s mm e] eqn:E; simpl in *; try reflexivity.
  - unfold SFeqb in H. simpl in H. discriminate.
  - unfold SFeqb in H. simpl in H.
    rewrite Z.compare_refl, Pos.compare_cont_refl in H. simpl in H.
    destruct s; discriminate.
Qed.


Lemma same_value_refl x : same_value x x = true.
Proof.
  unfold same_value. destruct (isnan x) eqn:E; [reflexivity|]. simpl.
  rewrite FloatAxioms.eqb_spec. unfold SFeqb.
  rewrite SFcompare_refl; [reflexivity|]. now apply isnan_false_spec.
Qed.

#[local] Close Scope float_scope.

(* ===================================================================== *)
(** * Facts about arrays: indexing, broadcasting, the mask, the store *)
(* ===================================================================== *)

Lemma length_indices s : length (indices s) = size s.
Proof.
  induction s as [|n s IH]; simpl; [reflexivity|].
  rewrite <- IH. clear IH. generalize 0 as k.
  induction n as [|n IHn]; intros k; simpl; [reflexivity|].
  rewrite length_app, length_map, IHn. reflexivity.
Qed.

Lemma ravel_lt s idx : in_bounds s idx -> ravel s idx < size s.
Proof.
  induction 1 as [|i n idx s Hi _ IH]; simpl; [lia|]. nia.
Qed.

Lemma lookup_flat_map_seq {B} (g : nat -> list B) k start n i r :
  (forall x, length (g x) = k) -> r < k -> i < n ->
  flat_map g (seq start n) !! (i * k + r) = g (start + i) !! r.
Proof.
  intros Hg Hr. revert start i.
  induction n as [|n IH]; intros start i Hi; [lia|]. simpl.
  destruct i as [|i].
  - rewrite lookup_app_l by (rewrite Hg; lia).
    simpl. now rewrite Nat.add_0_r.
  - rewrite lookup_app_r by (rewrite Hg; simpl; lia).
    rewrite Hg. replace (S i * k + r - k) with (i * k + r) by (simpl; lia).
    rewrite IH by lia. f_equal. f_equal. lia.
Qed.

Lemma lookup_indices s idx :
  in_bounds s idx -> indices s !! ravel s idx = Some idx.
Proof.
  induction 1 as [|i n idx s Hi Hb IH]; simpl; [reflexivity|].
  rewrite (lookup_flat_map_seq _ (size s)).
  - simpl. change (map (cons i) (indices s)) with (cons i <$> indices s).
    rewrite list_lookup_fmap, IH. reflexivity.
  - intros x. now rewrite length_map, length_indices.
  - now apply ravel_lt.
  - exact Hi.
Qed.

Lemma item_tabulate s f idx :
  in_bounds s idx -> item (tabulate s f) idx = f idx.
Proof.
  intros Hb. unfold item, tabulate. simpl.
  change (map f (indices s)) with (f <$> indices s).
  rewrite nth_lookup, list_lookup_fmap, lookup_indices by exact Hb.
  reflexivity.
Qed.

Lemma indices_in_bounds s idx : In idx (indices s) -> in_bounds s idx.
Proof.
  revert idx. induction s as [|n s IH]; simpl; intros idx H.
  - destruct H as [<-|[]]. constructor.
  - apply in_flat_map in H as (i & Hi & H).
    apply in_map_iff in H as (idx' & <- & H).
    apply in_seq in Hi. constructor; [lia|]. now apply IH.
Qed.

Lemma tabulate_ext s f g :
  (forall idx, in_bounds s idx -> f idx = g idx) -> tabulate s f = tabulate s g.
Proof.
  intros H. unfold tabulate. f_equal. apply map_ext_in.
  intros idx Hin. apply H. now apply indices_in_bounds.
Qed.

Lemma in_bounds_2 n m i j : i < n -> j < m -> in_bounds [n; m] [i; j].
Proof. intros. repeat constructor; assumption. Qed.

Lemma in_bounds_3 n m k i j l : i < n -> j < m -> l < k -> in_bounds [n; m; k] [i; j; l].
Proof. intros. repeat constructor; assumption. Qed.

Lemma in_bounds_inv_2 n m idx : in_bounds [n; m] idx -> exists i j, idx = [i; j] /\ i < n /\ j < m.
Proof.
  intros H. inversion H as [|i ? idx1 ? Hi H1]; subst.
  inversion H1 as [|j ? idx2 ? Hj H2]; subst. inversion H2; subst. eauto.
Qed.

Lemma item_scalar_mul c a idx : item (scalar_mul c a) idx = (c * item a idx)%float.
Proof.
  unfold item, scalar_mul. simpl.
  rewrite <- (mul_nan_r c) at 1.
  apply (map_nth (fun x => (c * x)%float)).
Qed.

Lemma broadcast_shapes_same_2 n m : broadcast_shapes [n; m] [n; m] = Some [n; m].
Proof. unfold broadcast_shapes. simpl. now rewrite !Nat.eqb_refl. Qed.

Lemma bcast_index_same_2 n m i j : i < n -> j < m -> bcast_index [n; m] [i; j] = [i; j].
Proof.
  intros Hi Hj. unfold bcast_index. simpl.
  destruct (Nat.eqb_spec n 1), (Nat.eqb_spec m 1); repeat f_equal; lia.
Qed.

Lemma item_squeeze_2 a n m i j :
  shape a = [n; m] -> (m = 1 -> n = 1) -> i < n -> j < m ->
  item (squeeze a) (bcast_index (shape (squeeze a)) [i; j]) = item a [i; j].
Proof.
  intros Hs Hsq Hi Hj. unfold item, squeeze, bcast_index. simpl. rewrite Hs. simpl.
  destruct (Nat.eqb_spec n 1) as [->|Hn], (Nat.eqb_spec m 1) as [->|Hm]; simpl.
  - f_equal. lia.
  - destruct (Nat.eqb_spec m 1); [lia|]. replace i with 0 by lia. f_equal; lia.
  - lia.
  - destruct (Nat.eqb_spec n 1), (Nat.eqb_spec m 1); try lia. reflexivity.
Qed.

(** The mask step on a slab of the target's shape. *)
Lemma mask_add g ref n m :
  shape g = [n; m] -> shape ref = [n; m] -> (m = 1 -> n = 1) ->
  exists r, NumPy.add g (scalar_mul 0 (squeeze ref)) = Ok r /\ shape r = [n; m] /\
    forall i j, i < n -> j < m ->
      item r [i; j] = (item g [i; j] + 0 * item ref [i; j])%float.
Proof.
  intros Hg Href Hsq. unfold NumPy.add.
  assert (Hb : broadcast_shapes (shape g) (shape (scalar_mul 0 (squeeze ref))) = Some [n; m]).
  { rewrite Hg. simpl. rewrite Href. unfold broadcast_shapes. simpl.
    destruct (Nat.eqb_spec n 1) as [->|Hn], (Nat.eqb_spec m 1) as [->|Hm]; simpl;
      rewrite ?Nat.eqb_refl; try reflexivity; try lia.
    all: repeat match goal with |- context [Nat.eqb ?a ?b] => destruct (Nat.eqb_spec a b); try lia end; try reflexivity. }
  rewrite Hb. eexists. split; [reflexivity|]. split; [reflexivity|].
  intros i j Hi Hj. rewrite item_tabulate by now apply in_bounds_2.
  rewrite Hg, bcast_index_same_2 by assumption. f_equal.
  change (shape (scalar_mul 0 (squeeze ref))) with (shape (squeeze ref)).
  rewrite item_scalar_mul. f_equal. now apply (item_squeeze_2 ref n m).
Qed.


Lemma setitem_last_3 arr i v n m k :
  shape arr = [n; m; k] -> shape v = [n; m] -> i < k ->
  exists arr', setitem_last arr i v = Ok arr' /\ shape arr' = [n; m; k] /\
    forall a b c, a < n -> b < m -> c < k ->
      item arr' [a; b; c] = if c =? i then item v [a; b] else item arr [a; b; c].
Proof.
  intros Harr Hv Hi. unfold setitem_last. rewrite Harr, Hv.
  cbn [removelast List.last length].
  destruct (Nat.leb_spec k i); [lia|].
  assert (Hst : strip_leading_ones 2 [n; m] = [n; m]).
  { destruct n as [|[|n]]; reflexivity. }
  rewrite Hst. unfold broadcast_to. cbn [shape].
  rewrite broadcast_shapes_same_2.
  destruct (decide ([n; m] = [n; m])); [|congruence].
  eexists. split; [reflexivity|]. split; [reflexivity|].
  intros a b c Ha Hb Hc. rewrite item_tabulate by now apply in_bounds_3.
  cbn [List.last removelast].
  destruct (c =? i); [|reflexivity].
  rewrite item_tabulate by now apply in_bounds_2.
  rewrite bcast_index_same_2 by assumption.
  unfold item. simpl. now rewrite Hv.
Qed.


(* ===================================================================== *)
(** * The program computes [regrid_pure] *)
(* ===================================================================== *)

Section Run.

Variable uninit : list nat -> float.

(** The loop writes the buffer at [r] and nothing else; what it writes is
    the fold [fill]. *)
Lemma for_enumerate_fill (input r : loc) src fdd tlat tlon times :
  forall i arr (h : heap),
    h !! input = Some (PyDataArray src) ->
    h !! r = Some (PyNdarray arr) ->
    for_enumerate i times (fun i time =>
        src ← load_DataArray input;
        regridded ← lift (regrid_step src fdd tlat tlon time);
        setitem_last_at r i regridded) h
    = ((fill src fdd tlat tlon i times arr).1,
       <[r := PyNdarray (fill src fdd tlat tlon i times arr).2]> h).
Proof.
  induction times as [|t times IH]; intros i arr h Hin Hr; simpl.
  - unfold mret, M_ret. now rewrite list_insert_id.
  - unfold mbind at 1. unfold M_bind.
    unfold mbind at 1. unfold M_bind, load_DataArray. rewrite Hin.
    unfold mbind at 1. unfold M_bind, lift.
    destruct (regrid_step src fdd tlat tlon t) as [v|e]; simpl.
    2: { now rewrite list_insert_id. }
    unfold setitem_last_at.
    unfold mbind at 1. unfold M_bind, load_ndarray. rewrite Hr.
    unfold mbind at 1. unfold M_bind.
    destruct (setitem_last arr i v) as [arr'|e]; simpl.
    2: { now rewrite list_insert_id. }
    unfold store.
    assert (Hlt : r < length h) by (eapply lookup_lt_Some; eauto).
    assert (Hne : r <> input) by (intros ->; congruence).
    rewrite IH with (arr := arr').
    + now rewrite list_insert_insert_eq.
    + rewrite list_lookup_insert_ne; auto.
    + now rewrite list_lookup_insert_eq.
Qed.

(** On a store that holds the two grids, [regrid_data] returns the outcome
    of [regrid_pure] and adds at most one object, the buffer, at the first
    free reference. *)
Theorem regrid_data_run (input target : loc) src tgt (h : heap) :
  h !! input = Some (PyDataArray src) ->
  h !! target = Some (PyDataArray tgt) ->
  regrid_data uninit input target h =
    ((regrid_pure uninit src tgt (length h)).1,
     match (regrid_pure uninit src tgt (length h)).2 with
     | Some arr => h ++ [PyNdarray arr]
     | None => h
     end).
Proof.
  intros Hin Htg.
  pose proof (lookup_lt_Some _ _ _ Hin) as Hlin.
  pose proof (lookup_lt_Some _ _ _ Htg) as Hltg.
  assert (Hloop := fun fdd tlat tlon times arr0 =>
    for_enumerate_fill input (length h) src fdd tlat tlon times 0 arr0
      (h ++ [PyNdarray arr0])).
  unfold regrid_data, regrid_pure, prelude, finish.
  unfold mbind, M_bind, result_bind, lift, load_DataArray, alloc, mret, M_ret, result_ret in *.
  rewrite Htg.
  destruct (get_time tgt) as [tgt_time|e]; [|reflexivity].
  destruct (first_label tgt_time) as [t0|e]; [|reflexivity].
  destruct (sel_time tgt t0) as [fdd|e]; [|reflexivity].
  destruct (get_latitude fdd) as [tlat|e]; [|reflexivity].
  destruct (get_longitude fdd) as [tlon|e]; [|reflexivity].
  rewrite Hin.
  destruct (get_time src) as [times|e] eqn:Egt; [|reflexivity].
  set (arr0 := empty uninit _).
  rewrite Hloop.
  2: { now rewrite lookup_app_l. }
  2: { rewrite lookup_app_r by lia. now rewrite Nat.sub_diag. }
  assert (Hins : forall a, <[length h := PyNdarray a]> (h ++ [PyNdarray arr0]) = h ++ [PyNdarray a]).
  { intros a. rewrite insert_app_r_alt by lia. now rewrite Nat.sub_diag. }
  rewrite Hins.
  destruct (fill src fdd tlat tlon 0 times arr0) as [[[]|e] arr]; cbn [fst snd]; [|reflexivity].
  rewrite lookup_app_l by assumption. rewrite Hin. cbn beta iota.
  destruct (str_add (name src) "_REGRIDDED") as [var|e]; [|reflexivity].
  rewrite lookup_app_l by assumption. rewrite Htg. cbn beta iota.
  destruct (get_latitude tgt) as [lat|e]; [|reflexivity].
  destruct (get_longitude tgt) as [lon|e]; [|reflexivity].
  rewrite lookup_app_l by assumption. rewrite Hin. cbn beta iota.
  rewrite Egt. reflexivity.
Qed.
End Run.

(* ===================================================================== *)
(** * Sorting, selection and interpolation on labelled grids *)
(* ===================================================================== *)

Lemma SFeqb_sym x y : SFeqb x y = SFeqb y x.
Proof.
  unfold SFeqb.
  destruct x as [s1|s1| |s1 m1 e1], y as [s2|s2| |s2 m2 e2]; simpl; try reflexivity;
    try (destruct s1; reflexivity); try (destruct s2; reflexivity);
    try (destruct s1, s2; reflexivity).
  rewrite (Z.compare_antisym e1 e2).
  change (PosDef.Pos.compare_cont Eq m1 m2) with (Pos.compare m1 m2).
  change (PosDef.Pos.compare_cont Eq m2 m1) with (Pos.compare m2 m1).
  rewrite (Pos.compare_antisym m1 m2).
  destruct s1, s2; try reflexivity;
    destruct (e1 ?= e2)%Z; simpl; try reflexivity;
    destruct (m1 ?= m2)%positive; reflexivity.
Qed.

Lemma same_value_sym a b : same_value a b = same_value b a.
Proof.
  unfold same_value. rewrite (andb_comm (isnan a)). f_equal.
  rewrite !FloatAxioms.eqb_spec. apply SFeqb_sym.
Qed.

Lemma insert_sorted_perm xs i l : Permutation (insert_sorted xs i l) (i :: l).
Proof.
  induction l as [|j l IH]; simpl; [reflexivity|].
  destruct (np_lt _ _); [|reflexivity].
  rewrite IH. apply perm_swap.
Qed.

Lemma argsort_perm xs : Permutation (argsort xs) (seq 0 (length xs)).
Proof.
  unfold argsort. induction (seq 0 (length xs)) as [|i l IH]; simpl; [reflexivity|].
  rewrite insert_sorted_perm. now constructor.
Qed.

Lemma map_nth_seq (xs : list float) : map (fun i => nth i xs nan) (seq 0 (length xs)) = xs.
Proof.
  induction xs as [|x xs IH]; simpl; [reflexivity|].
  f_equal. rewrite <- seq_shift, map_map. exact IH.
Qed.

Lemma sorted_coord_perm xs : Permutation (sorted_coord xs) xs.
Proof.
  unfold sorted_coord. rewrite (argsort_perm xs). now rewrite map_nth_seq.
Qed.

Lemma existsb_perm {A} (f : A -> bool) l l' : Permutation l l' -> existsb f l = existsb f l'.
Proof.
  induction 1; simpl; try congruence.
  - now destruct (f x), (f y).
Qed.

Lemma has_duplicates_perm l l' : Permutation l l' -> has_duplicates l = has_duplicates l'.
Proof.
  induction 1 as [|x l l' Hp IH|x y l|l1 l2 l3 _ IH1 _ IH2]; simpl.
  - reflexivity.
  - now rewrite IH, (existsb_perm _ _ _ Hp).
  - rewrite (same_value_sym y x).
    destruct (same_value x y), (existsb (same_value y) l),
      (existsb (same_value x) l), (has_duplicates l); reflexivity.
  - congruence.
Qed.

Lemma has_duplicates_sorted xs : has_duplicates (sorted_coord xs) = has_duplicates xs.
Proof. apply has_duplicates_perm, sorted_coord_perm. Qed.

Lemma length_argsort xs : length (argsort xs) = length xs.
Proof. rewrite (Permutation_length (argsort_perm xs)). apply length_seq. Qed.

Lemma length_sorted_coord xs : length (sorted_coord xs) = length xs.
Proof. unfold sorted_coord. now rewrite length_map, length_argsort. Qed.

Lemma positions_from_absent ts : forall i t, ~ In t ts -> positions_from i t ts = [].
Proof.
  induction ts as [|x ts IH]; intros i t Hn; simpl; [reflexivity|].
  destruct (Z.eqb_spec x t) as [->|_]; [exfalso; apply Hn; now left|].
  apply IH. intros H. apply Hn. now right.
Qed.

Lemma positions_from_unique ts : forall i k t,
  List.NoDup ts -> ts !! k = Some t -> positions_from i t ts = [i + k].
Proof.
  induction ts as [|x ts IH]; intros i k t Hnd Hk; [discriminate|].
  inversion Hnd as [|? ? Hx Hnd']; subst. simpl.
  destruct k as [|k]; simpl in Hk.
  - injection Hk as ->. rewrite Z.eqb_refl, positions_from_absent by assumption.
    now rewrite Nat.add_0_r.
  - destruct (Z.eqb_spec x t) as [->|_].
    + exfalso. apply Hx. apply list_elem_of_In. eapply list_elem_of_lookup_2; eauto.
    + rewrite (IH (S i) k t Hnd' Hk). f_equal. lia.
Qed.

Lemma interp_2d nm tm lat lon a new_lat new_lon :
  new_lat <> [] -> new_lon <> [] -> lat <> [] -> lon <> [] ->
  has_duplicates lat = false -> has_duplicates lon = false ->
  interp (mkDataArray nm [Latitude; Longitude] tm (Some lat) (Some lon) a) new_lat new_lon
  = Ok (mkDataArray nm [Latitude; Longitude] tm (Some new_lat) (Some new_lon)
          (bilinear lat lon a new_lat new_lon)).
Proof.
  intros Hnlat Hnlon Hlat Hlon Hdlat Hdlon.
  unfold interp, sortby, localize, nonempty, axis_of, get_latitude, get_longitude.
  cbn. fold (sorted_coord lat). fold (sorted_coord lon).
  rewrite !has_duplicates_sorted, Hdlat, Hdlon.
  destruct new_lat as [|? ?]; [congruence|].
  destruct new_lon as [|? ?]; [congruence|].
  pose proof (length_sorted_coord lat) as Ll.
  pose proof (length_sorted_coord lon) as Lo.
  destruct (sorted_coord lat) as [|? ?] eqn:El; [destruct lat; [congruence|discriminate]|].
  destruct (sorted_coord lon) as [|? ?] eqn:Eo; [destruct lon; [congruence|discriminate]|].
  cbn. rewrite <- El, <- Eo. reflexivity.
Qed.

(* ===================================================================== *)
(** * The call on a valid pair *)
(* ===================================================================== *)

Lemma item_take_along_0 a k idx n s :
  shape a = n :: s -> in_bounds s idx ->
  item (take_along 0 k a) idx = item a (k :: idx).
Proof.
  intros Hs Hb. unfold take_along. rewrite Hs. simpl.
  now rewrite item_tabulate.
Qed.

Lemma sel_time_unique da ts lat lon k t :
  labeled_grid da ts lat lon -> List.NoDup ts -> ts !! k = Some t ->
  sel_time da t = Ok (mkDataArray (name da) [Latitude; Longitude] (Some [t])
                        (Some lat) (Some lon) (take_along 0 k (data da))).
Proof.
  intros [Hd Ht Hla Hlo Hs] Hnd Hk. unfold sel_time, get_time, axis_of.
  rewrite Ht, Hd. cbn. unfold positions.
  rewrite (positions_from_unique ts 0 k t Hnd Hk). cbn.
  now rewrite Hla, Hlo.
Qed.

Lemma sel_time_first da t0 tts lat lon :
  labeled_grid da (t0 :: tts) lat lon -> ~ In t0 tts ->
  sel_time da t0 = Ok (mkDataArray (name da) [Latitude; Longitude] (Some [t0])
                         (Some lat) (Some lon) (take_along 0 0 (data da))).
Proof.
  intros [Hd Ht Hla Hlo Hs] Hn. unfold sel_time, get_time, axis_of.
  rewrite Ht, Hd. cbn. unfold positions. simpl.
  rewrite Z.eqb_refl, positions_from_absent by assumption. cbn.
  now rewrite Hla, Hlo.
Qed.

Lemma shape_bilinear lat lon a new_lat new_lon n m :
  shape a = [n; m] ->
  shape (bilinear lat lon a new_lat new_lon) = [length new_lat; length new_lon].
Proof. intros Hs. unfold bilinear. simpl. rewrite Hs. reflexivity. Qed.

Lemma fill_ok src fdd tlat tlon n m K (F : nat -> nat -> nat -> float) times :
  forall i arr,
    shape arr = [n; m; K] -> i + length times <= K ->
    (forall q t, times !! q = Some t ->
       exists v, regrid_step src fdd tlat tlon t = Ok v /\ shape v = [n; m] /\
         forall a b, a < n -> b < m -> item v [a; b] = F (i + q) a b) ->
    exists arr', fill src fdd tlat tlon i times arr = (Ok tt, arr') /\
      shape arr' = [n; m; K] /\
      forall a b c, a < n -> b < m -> c < K ->
        item arr' [a; b; c] =
          if (i <=? c) && (c <? i + length times) then F c a b else item arr [a; b; c].
Proof.
  induction times as [|t times IH]; intros i arr Hs Hlen Hstep; simpl.
  - exists arr. split; [reflexivity|]. split; [assumption|].
    intros a b c _ _ _.
    destruct (Nat.leb_spec i c), (Nat.ltb_spec c (i + 0)); simpl; try reflexivity; lia.
  - destruct (Hstep 0 t eq_refl) as (v & Hv & Hsv & Hitem). rewrite Hv.
    simpl in Hlen.
    destruct (setitem_last_3 arr i v n m K Hs Hsv ltac:(lia)) as (arr1 & H1 & Hs1 & Hit1).
    rewrite H1.
    destruct (IH (S i) arr1 Hs1 ltac:(lia)) as (arr' & H' & Hs' & Hit').
    { intros q t' Hq. destruct (Hstep (S q) t' Hq) as (v' & ? & ? & Hv').
      exists v'. repeat split; try assumption.
      intros a b Ha Hb. rewrite Hv' by assumption. f_equal. lia. }
    exists arr'. split; [assumption|]. split; [assumption|].
    intros a b c Ha Hb Hc. rewrite Hit', Hit1 by assumption.
    destruct (Nat.eqb_spec c i) as [->|Hne].
    + destruct (Nat.leb_spec (S i) i); [lia|]. simpl.
      destruct (Nat.leb_spec i i); [|lia].
      destruct (Nat.ltb_spec i (i + S (length times))); [|lia]. simpl.
      rewrite Hitem by assumption. f_equal. lia.
    + destruct (Nat.leb_spec (S i) c), (Nat.leb_spec i c),
        (Nat.ltb_spec c (S i + length times)), (Nat.ltb_spec c (i + S (length times)));
        simpl; try reflexivity; lia.
Qed.

Section Valid.
Variable uninit : list nat -> float.
Variables (src tgt : DataArray) (ts : list Z) (lat lon : list float)
          (t0 : Z) (tts : list Z) (tlat tlon : list float).
Hypothesis valid : valid_pair src tgt ts lat lon t0 tts tlat tlon.

Let fdd := mkDataArray (name tgt) [Latitude; Longitude] (Some [t0])
                       (Some tlat) (Some tlon) (take_along 0 0 (data tgt)).

Lemma regrid_step_valid k t :
  squeeze_safe tlat tlon ->
  ts !! k = Some t ->
  exists v, regrid_step src fdd tlat tlon t = Ok v /\
    shape v = [length tlat; length tlon] /\
    forall i j, i < length tlat -> j < length tlon ->
      item v [i; j] = masked_cell src tgt lat lon tlat tlon k i j.
Proof.
  intros Hsq Hk. destruct valid as [Hsrc Htgt Hnd Hfirst [Hl1 Hl2] [Ho1 Ho2] Htl Hto].
  unfold regrid_step. rewrite (sel_time_unique _ _ _ _ _ _ Hsrc Hnd Hk). cbn [mbind result_bind].
  rewrite interp_2d by assumption. cbn [mbind result_bind].
  set (g := bilinear _ _ _ _ _).
  assert (Hg : shape g = [length tlat; length tlon]).
  { unfold g. eapply shape_bilinear. unfold take_along.
    rewrite (lg_shape _ _ _ _ Hsrc). reflexivity. }
  assert (Href : shape (take_along 0 0 (data tgt)) = [length tlat; length tlon]).
  { unfold take_along. rewrite (lg_shape _ _ _ _ Htgt). reflexivity. }
  destruct (mask_add g (take_along 0 0 (data tgt)) _ _ Hg Href Hsq) as (r & Hr & Hsr & Hit).
  unfold add_raw. cbn [data fdd]. rewrite Hr. cbn [mbind result_bind].
  rewrite Hsr. cbn. eexists. split; [reflexivity|]. split; [assumption|].
  intros i j Hi Hj. rewrite Hit by assumption. unfold masked_cell. f_equal. f_equal.
  apply (item_take_along_0 _ 0 [i; j] _ _ (lg_shape _ _ _ _ Htgt)).
  now apply in_bounds_2.
Qed.

Lemma prelude_valid :
  prelude src tgt = Ok (fdd, tlat, tlon, ts).
Proof.
  destruct valid as [Hsrc Htgt Hnd Hfirst _ _ _ _].
  unfold prelude, get_time. rewrite (lg_time _ _ _ _ Htgt). cbn.
  rewrite (sel_time_first _ _ _ _ _ Htgt Hfirst). cbn.
  rewrite (lg_time _ _ _ _ Hsrc). reflexivity.
Qed.

Lemma fill_valid :
  squeeze_safe tlat tlon ->
  exists arr,
    fill src fdd tlat tlon 0 ts (empty uninit [length tlat; length tlon; length ts])
      = (Ok tt, arr) /\
    shape arr = [length tlat; length tlon; length ts] /\
    forall i j k, i < length tlat -> j < length tlon -> k < length ts ->
      item arr [i; j; k] = masked_cell src tgt lat lon tlat tlon k i j.
Proof.
  intros Hsq.
  destruct (fill_ok src fdd tlat tlon (length tlat) (length tlon) (length ts)
              (masked_cell src tgt lat lon tlat tlon) ts 0 (empty uninit [length tlat; length tlon; length ts]))
    as (arr & Hf & Hs & Hit).
  - reflexivity.
  - lia.
  - intros q t Hq. apply regrid_step_valid; assumption.
  - exists arr. split; [assumption|]. split; [assumption|].
    intros i j k Hi Hj Hk. rewrite Hit by assumption.
    destruct (Nat.ltb_spec k (0 + length ts)); [reflexivity|lia].
Qed.

Lemma regrid_pure_valid r :
  squeeze_safe tlat tlon ->
  exists arr,
    regrid_pure uninit src tgt r
      = (_ ← Ok tt; finish src tgt r, Some arr) /\
    shape arr = [length tlat; length tlon; length ts] /\
    forall i j k, i < length tlat -> j < length tlon -> k < length ts ->
      item arr [i; j; k] = masked_cell src tgt lat lon tlat tlon k i j.
Proof.
  intros Hsq. destruct (fill_valid Hsq) as (arr & Hf & Hs & Hit).
  exists arr. split; [|split; assumption].
  unfold regrid_pure. rewrite prelude_valid, Hf. reflexivity.
Qed.

Lemma finish_valid r nm :
  name src = Some nm ->
  finish src tgt r
  = Ok (mkDataset (nm ++ "_REGRIDDED")%string [Latitude; Longitude; Time] r tlat tlon ts).
Proof.
  intros Hnm. destruct valid as [Hsrc Htgt _ _ _ _ _ _].
  unfold finish, get_latitude, get_longitude, get_time.
  rewrite Hnm, (lg_latitude _ _ _ _ Htgt), (lg_longitude _ _ _ _ Htgt),
    (lg_time _ _ _ _ Hsrc). reflexivity.
Qed.

(** On a valid pair whose target survives the squeeze, with a named
    source, the call returns: the dataset, and a buffer that holds at
    [(i, j, k)] the masked interpolated cell of timestep [k]. *)
Theorem regrid_data_valid (h : heap) input target nm :
  squeeze_safe tlat tlon ->
  name src = Some nm ->
  h !! input = Some (PyDataArray src) ->
  h !! target = Some (PyDataArray tgt) ->
  exists arr,
    regrid_data uninit input target h
      = (Ok (mkDataset (nm ++ "_REGRIDDED")%string [Latitude; Longitude; Time]
                       (length h) tlat tlon ts),
         h ++ [PyNdarray arr]) /\
    shape arr = [length tlat; length tlon; length ts] /\
    forall i j k, i < length tlat -> j < length tlon -> k < length ts ->
      item arr [i; j; k] = masked_cell src tgt lat lon tlat tlon k i j.
Proof.
  intros Hsq Hnm Hin Htg.
  destruct (regrid_pure_valid (length h) Hsq) as (arr & Hp & Hs & Hit).
  exists arr. split; [|split; assumption].
  rewrite (regrid_data_run uninit input target src tgt h Hin Htg), Hp.
  cbn [fst snd mbind result_bind]. now rewrite (finish_valid _ nm).
Qed.

End Valid.

(* ===================================================================== *)
(** * What any call leaves behind *)
(* ===================================================================== *)

Lemma setitem_last_shape arr i v arr' :
  setitem_last arr i v = Ok arr' -> shape arr' = shape arr.
Proof.
  unfold setitem_last. destruct (_ <=? _); [discriminate|].
  destruct (broadcast_to _ _); [|discriminate].
  intros [= <-]. reflexivity.
Qed.

Lemma fill_shape src fdd tlat tlon times :
  forall i arr, shape (fill src fdd tlat tlon i times arr).2 = shape arr.
Proof.
  induction times as [|t times IH]; intros i arr; simpl; [reflexivity|].
  destruct (regrid_step _ _ _ _ _); [|reflexivity].
  destruct (setitem_last arr i a) as [arr'|e] eqn:E; [|reflexivity].
  rewrite IH. eapply setitem_last_shape; eauto.
Qed.

Lemma sel_time_coords da t da' :
  sel_time da t = Ok da' ->
  latitude da' = latitude da /\ longitude da' = longitude da.
Proof.
  unfold sel_time. destruct (get_time da); [|discriminate]. cbn.
  destruct (axis_of Time da); [|discriminate]. cbn.
  destruct (positions t a) as [|k [|k' ks]]; [discriminate| |];
    intros [= <-]; split; reflexivity.
Qed.

Section Outcome.
Variable uninit : list nat -> float.

(** A call on references that do not both hold a labelled array fails
    before anything is allocated. *)
Lemma regrid_data_not_loaded (h : heap) input target :
  ~ (exists src tgt, h !! input = Some (PyDataArray src) /\
                      h !! target = Some (PyDataArray tgt)) ->
  exists e, regrid_data uninit input target h = (Raise e, h).
Proof.
  intros Hno. unfold regrid_data.
  unfold mbind, M_bind, result_bind, lift, load_DataArray, alloc, mret, M_ret, result_ret.
  destruct (h !! target) as [[tgt|a]|] eqn:Htg; [|eauto|eauto].
  destruct (get_time tgt) as [tgt_time|e]; [|eauto].
  destruct (first_label tgt_time) as [t0|e]; [|eauto].
  destruct (sel_time tgt t0) as [fdd|e]; [|eauto].
  destruct (get_latitude fdd) as [tlat|e]; [|eauto].
  destruct (get_longitude fdd) as [tlon|e]; [|eauto].
  destruct (h !! input) as [[src|a]|] eqn:Hin; [|eauto|eauto].
  exfalso. apply Hno. eauto.
Qed.

(** The store after the call is the store before it, with at most the new
    buffer added at the end. *)
Lemma regrid_data_store (h : heap) input target :
  (regrid_data uninit input target h).2 = h \/
  exists arr, (regrid_data uninit input target h).2 = h ++ [PyNdarray arr].
Proof.
  destruct (h !! input) as [[src|a]|] eqn:Hin.
  1: destruct (h !! target) as [[tgt|a]|] eqn:Htg.
  1: { rewrite (regrid_data_run uninit input target src tgt h Hin Htg). cbn [snd].
       destruct (regrid_pure uninit src tgt (length h)).2; eauto. }
  all: destruct (regrid_data_not_loaded h input target) as [e ->]; [|now left];
       intros (s & t & Hs & Ht); congruence.
Qed.

(** What a returned dataset is made of. *)
Lemma regrid_data_ok_inv (h h' : heap) input target ds :
  regrid_data uninit input target h = (Ok ds, h') ->
  exists src tgt arr nm,
    h !! input = Some (PyDataArray src) /\
    h !! target = Some (PyDataArray tgt) /\
    h' = h ++ [PyNdarray arr] /\
    name src = Some nm /\
    latitude tgt = Some (ds_latitude ds) /\
    longitude tgt = Some (ds_longitude ds) /\
    time src = Some (ds_time ds) /\
    ds = mkDataset (nm ++ "_REGRIDDED")%string [Latitude; Longitude; Time] (length h)
                   (ds_latitude ds) (ds_longitude ds) (ds_time ds) /\
    shape arr = [length (ds_latitude ds); length (ds_longitude ds); length (ds_time ds)].
Proof.
  intros Hrun.
  destruct (h !! input) as [[src|a]|] eqn:Hin.
  1: destruct (h !! target) as [[tgt|a]|] eqn:Htg.
  2-5: destruct (regrid_data_not_loaded h input target) as [e He];
       [intros (s & t & Hs & Ht); congruence | congruence].
  rewrite (regrid_data_run uninit input target src tgt h Hin Htg) in Hrun.
  unfold regrid_pure, prelude in Hrun.
  destruct (get_time tgt) as [tgt_time|e] eqn:E1; [|discriminate]. cbn in Hrun.
  destruct (first_label tgt_time) as [t0|e]; [|discriminate]. cbn in Hrun.
  destruct (sel_time tgt t0) as [fdd|e] eqn:E3; [|discriminate]. cbn in Hrun.
  destruct (sel_time_coords _ _ _ E3) as [Hla Hlo].
  unfold get_latitude, get_longitude in Hrun. rewrite Hla, Hlo in Hrun.
  destruct (latitude tgt) as [tlat|] eqn:E4; [|discriminate]. cbn in Hrun.
  destruct (longitude tgt) as [tlon|] eqn:E5; [|discriminate]. cbn in Hrun.
  unfold get_time in Hrun.
  destruct (time src) as [ts|] eqn:E6; [|discriminate]. cbn in Hrun.
  pose proof (fill_shape src fdd tlat tlon ts 0
                (empty uninit [length tlat; length tlon; length ts])) as Hsh.
  destruct (fill _ _ _ _ _ _ _) as [[[]|e] arr]; [|discriminate].
  cbn in Hrun, Hsh. unfold finish, get_latitude, get_longitude, get_time in Hrun.
  rewrite E4, E5, E6 in Hrun.
  destruct (name src) as [nm|] eqn:E7; [|discriminate]. cbn in Hrun.
  injection Hrun as <- <-. cbn.
  exists src, tgt, arr, nm. repeat split; try reflexivity; assumption.
Qed.

End Outcome.

(* ===================================================================== *)
(** * The scenario grids are valid pairs *)
(* ===================================================================== *)

Lemma scenario_valid nm :
  valid_pair (scenario_source nm) scenario_target
             [0; 1]%Z [0; 1]%float [0; 1]%float 0%Z [] [0; 1]%float [0; 1]%float.
Proof.
  split; try (split; [discriminate|reflexivity]); try discriminate.
  - split; reflexivity.
  - split; reflexivity.
  - repeat constructor; simpl; intuition discriminate.
  - intros [].
Qed.

Lemma scenario_squeeze_safe : squeeze_safe [0; 1]%float [0; 1]%float.
Proof. intros H. discriminate H. Qed.

(* ===================================================================== *)
(** * Points outside the source's bounds *)
(* ===================================================================== *)

Lemma in_bounds_insert s idx p n k :
  in_bounds (<[p := n]> s) idx -> k < n -> p < length s ->
  in_bounds (<[p := n]> s) (<[p := k]> idx).
Proof.
  unfold in_bounds. revert idx p.
  induction s as [|m s IH]; intros idx p Hb Hk Hp; simpl in *; [lia|].
  destruct p as [|p]; simpl in *.
  - inversion Hb; subst. simpl. constructor; assumption.
  - inversion Hb; subst. simpl. constructor; [assumption|].
    apply IH; [assumption|assumption|lia].
Qed.

Lemma item_interp1d p xs x_new a idx :
  in_bounds (<[p := length x_new]> (shape a)) idx ->
  item (interp1d p xs x_new a) idx
  = interp_cell xs (fun k => item a (<[p := k]> idx)) (nth (nth p idx 0) x_new nan).
Proof. intros Hb. unfold interp1d. now rewrite item_tabulate. Qed.

Lemma neighbours_lt xs v :
  xs <> [] ->
  (neighbours xs v).1 < length xs /\ (neighbours xs v).2 < length xs.
Proof.
  intros Hne. unfold neighbours, clip, py_index. cbn [fst snd].
  assert (0 < length xs) by (destruct xs; [congruence|simpl; lia]).
  set (s := Z.of_nat (searchsorted xs v)).
  assert (0 <= s)%Z by (unfold s; lia).
  split.
  - destruct (Z.ltb_spec (Z.min (Z.max s 1) (Z.of_nat (length xs) - 1) - 1) 0); lia.
  - destruct (Z.ltb_spec (Z.min (Z.max s 1) (Z.of_nat (length xs) - 1)) 0); lia.
Qed.


Lemma interp_cell_nan_lo xs y v :
  y (neighbours xs v).1 = nan -> interp_cell xs y v = nan.
Proof.
  intros H. unfold interp_cell. destruct (neighbours xs v) as [lo hi].
  cbn [fst] in H. unfold linear. rewrite H, add_nan_r.
  now destruct (out_of_bounds xs v).
Qed.



Lemma sorted_coord_nonempty xs : xs <> [] -> sorted_coord xs <> [].
Proof.
  intros H E. apply (f_equal (@length float)) in E.
  rewrite length_sorted_coord in E. destruct xs; [congruence|discriminate].
Qed.



(* ===================================================================== *)
(** * A target with a single longitude *)
(* ===================================================================== *)




Section Misaligned.
Variable uninit : list nat -> float.
Variables (src tgt : DataArray) (ts : list Z) (lat lon : list float)
          (t0 : Z) (tts : list Z) (tlat tlon : list float).
Hypothesis valid : valid_pair src tgt ts lat lon t0 tts tlat tlon.
Hypothesis one_longitude : length tlon = 1.
Hypothesis many_latitudes : length tlat <> 1.

Let fdd := mkDataArray (name tgt) [Latitude; Longitude] (Some [t0])
                       (Some tlat) (Some tlon) (take_along 0 0 (data tgt)).



End Misaligned.

(* ===================================================================== *)
(** * The order of binary64 cells *)
(* ===================================================================== *)

#[local] Open Scope float_scope.


Lemma SFltb_asym x y : SFltb x y = true -> SFltb y x = false.
Proof.
  unfold SFltb.
  destruct x as [s1|s1| |s1 m1 e1], y as [s2|s2| |s2 m2 e2]; simpl; try discriminate;
    try (destruct s1; simpl; congruence); try (destruct s2; simpl; congruence);
    try (destruct s1, s2; simpl; congruence).
  rewrite (Z.compare_antisym e1 e2).
  change (PosDef.Pos.compare_cont Eq m1 m2) with (Pos.compare m1 m2).
  change (PosDef.Pos.compare_cont Eq m2 m1) with (Pos.compare m2 m1).
  rewrite (Pos.compare_antisym m1 m2).
  destruct s1, s2; try discriminate; try reflexivity;
    destruct (e1 ?= e2)%Z; simpl; try discriminate; try reflexivity;
    destruct (m1 ?= m2)%positive; simpl; try discriminate; reflexivity.
Qed.

Lemma ltb_asym x y : (x <? y) = true -> (y <? x) = false.
Proof. rewrite !ltb_spec. apply SFltb_asym. Qed.

Lemma ltb_not_nan x y : (x <? y) = true -> isnan x = false /\ isnan y = false.
Proof.
  rewrite ltb_spec. intros H. split; apply isnan_false_spec; intros E;
    rewrite E in H; unfold SFltb in H; simpl in H; [discriminate|].
  destruct (Prim2SF x); discriminate.
Qed.

Lemma np_lt_of_ltb x y : (x <? y) = true -> np_lt x y = true.
Proof. intros H. unfold np_lt. now rewrite H. Qed.


Lemma np_lt_asym x y : (x <? y) = true -> np_lt y x = false.
Proof.
  intros H. unfold np_lt. rewrite (ltb_asym _ _ H).
  destruct (ltb_not_nan _ _ H) as [-> ->]. reflexivity.
Qed.

#[local] Close Scope float_scope.

(* ===================================================================== *)
(** * Interpolation onto the source's own coordinates *)
(* ===================================================================== *)







Lemma argsort_increasing_from xs : forall len start,
  increasing xs -> start + len <= length xs ->
  fold_right (insert_sorted xs) [] (seq start len) = seq start len.
Proof.
  induction len as [|len IH]; intros start Hinc Hle; simpl; [reflexivity|].
  rewrite IH by (assumption || lia).
  destruct len as [|len]; simpl; [reflexivity|].
  rewrite np_lt_asym; [reflexivity|].
  apply Hinc; lia.
Qed.

Lemma argsort_increasing xs : increasing xs -> argsort xs = seq 0 (length xs).
Proof. intros H. unfold argsort. apply argsort_increasing_from; [assumption|lia]. Qed.

Lemma sorted_coord_increasing xs : increasing xs -> sorted_coord xs = xs.
Proof.
  intros H. unfold sorted_coord. rewrite argsort_increasing by assumption.
  apply map_nth_seq.
Qed.




Lemma full_target_valid nm :
  valid_pair (scenario_source nm) full_target
             [0; 1]%Z [0; 1]%float [0; 1]%float 0%Z [] [0; 1]%float [0; 1]%float.
Proof.
  split; try (split; [discriminate|reflexivity]); try discriminate.
  - split; reflexivity.
  - split; reflexivity.
  - repeat constructor; simpl; intuition discriminate.
  - intros [].
Qed.


(* ===================================================================== *)
(** * Reordering the time axis *)
(* ===================================================================== *)

Lemma map_nth_seq_Z (ts : list Z) : map (fun q => nth q ts 0%Z) (seq 0 (length ts)) = ts.
Proof.
  induction ts as [|x ts IH]; simpl; [reflexivity|].
  f_equal. rewrite <- seq_shift, map_map. exact IH.
Qed.

Lemma permute_time_labels p (ts : list Z) :
  Permutation p (seq 0 (length ts)) ->
  Permutation (map (fun q => nth q ts 0%Z) p) ts.
Proof. intros Hp. rewrite Hp. now rewrite map_nth_seq_Z. Qed.

Lemma take_along_pick_along a p q n s :
  shape a = n :: s -> q < length p ->
  take_along 0 q (pick_along 0 p a) = take_along 0 (nth q p 0) a.
Proof.
  intros Hs Hq. unfold take_along.
  assert (Hsp : shape (pick_along 0 p a) = length p :: s).
  { unfold pick_along. cbn [shape tabulate]. rewrite Hs. reflexivity. }
  rewrite Hsp, Hs. cbn [delete list_delete].
  apply tabulate_ext. intros idx Hb. unfold insert_at. cbn [firstn skipn app].
  unfold pick_along. rewrite Hs. cbn [insert list_insert].
  rewrite item_tabulate; [reflexivity|].
  constructor; assumption.
Qed.

Lemma permutation_nth_lt p n q :
  Permutation p (seq 0 n) -> q < length p -> nth q p 0 < n.
Proof.
  intros Hp Hq.
  assert (Hin : In (nth q p 0) (seq 0 n)).
  { eapply Permutation_in; [exact Hp|]. now apply nth_In. }
  apply in_seq in Hin. lia.
Qed.

Lemma permute_time_valid p src tgt ts lat lon t0 tts tlat tlon :
  valid_pair src tgt ts lat lon t0 tts tlat tlon ->
  Permutation p (seq 0 (length ts)) ->
  valid_pair (permute_time p src) tgt (map (fun q => nth q ts 0%Z) p) lat lon
             t0 tts tlat tlon.
Proof.
  intros [Hsrc Htgt Hnd Hfirst Hlat Hlon Htl Hto] Hp.
  destruct Hsrc as [Hd Ht Hla Hlo Hs].
  split; try assumption.
  - split; unfold permute_time; cbn; try assumption.
    + now rewrite Ht.
    + rewrite Hs. cbn. now rewrite length_map.
  - eapply Stdlib.Sorting.Permutation.Permutation_NoDup; [|exact Hnd].
    symmetry. apply permute_time_labels. exact Hp.
Qed.

(* ===================================================================== *)
(** * How a call fails *)
(* ===================================================================== *)











Lemma sel_time_first_label tgt t0 tts p :
  time tgt = Some (t0 :: tts) -> index_of Time (dims tgt) = Some p ->
  exists fdd, sel_time tgt t0 = Ok fdd /\
              latitude fdd = latitude tgt /\ longitude fdd = longitude tgt.
Proof.
  intros Ht Hp. unfold sel_time, get_time, axis_of. rewrite Ht, Hp. cbn.
  unfold positions. cbn. rewrite Z.eqb_refl.
  destruct (positions_from 1 t0 tts); eexists; (split; [reflexivity|split; reflexivity]).
Qed.

Section Classes.
Variable uninit : list nat -> float.


End Classes.

(* ===================================================================== *)
(** * The outcome does not depend on the values of the cells *)
(* ===================================================================== *)




Section Layout.
Variables uninit uninit' : list nat -> float.





End Layout.

(* ===================================================================== *)
(** * The properties of the specification *)
(* ===================================================================== *)

(** In the statements below the two arguments of [regrid_data] are the
    references [input] and [target] into the store [h], which hold the
    source [src] and the target [tgt]; [uninit] is whatever [np.empty]
    left in the buffer it allocated. *)

(** ** C1: the target mask *)

(** Claim C1 at an infinite reference cell. C1 says that a cell whose
    reference value is missing is missing in the result at every timestep,
    and that a cell whose reference value is present keeps its interpolated
    value, as the comment of lines 54-55 does ("NaNs where the target is
    NaN, or regridded data elsewhere"). On the scenario's grids with
    [infinity] in place of the missing reference cell (1, 0), the reference
    cell is present (not NaN), the interpolated cell is 3, and the result
    cell is missing: the product [0 * infinity] of line 56 is NaN, not
    zero. *)
Lemma infinite_reference_cell_is_masked :
  exists ds arr,
    regrid_data (fun _ => 0%float) 0 1
      [PyDataArray (scenario_source (Some "PM25_CMIP"%string)); PyDataArray infinite_target]
      = (Ok ds, [PyDataArray (scenario_source (Some "PM25_CMIP"%string));
                 PyDataArray infinite_target; PyNdarray arr]) /\
    isnan (item (data infinite_target) [0; 1; 0]) = false /\
    item (interpolated (scenario_source (Some "PM25_CMIP"%string))
            [0; 1]%float [0; 1]%float [0; 1]%float [0; 1]%float 0) [1; 0] = 3%float /\
    isnan (item arr [1; 0; 0]) = true.
Proof.
  eexists; eexists. split; [vm_compute; reflexivity|].
  repeat split; vm_compute; reflexivity.
Qed.



(** ** C2: the coordinates of the result *)

(** Claim C2. Whenever [regrid_data] returns a result, its latitude
    coordinate is the target's latitude, its longitude coordinate is the
    target's longitude and its time coordinate is the source's time (the
    same lists: same length, order and values), the dimensions of its
    variable are (latitude, longitude, time) in this order, and the array
    of the variable has the three lengths as its shape. On every valid
    source/target pair on which the mask stays aligned and whose source is
    named, [regrid_data] does return such a result. *)
Theorem regrid_data_coordinates (uninit : list nat -> float) (h : heap) input target src tgt :
  h !! input = Some (PyDataArray src) ->
  h !! target = Some (PyDataArray tgt) ->
  (forall ds h',
     regrid_data uninit input target h = (Ok ds, h') ->
     Some (ds_latitude ds) = latitude tgt /\
     Some (ds_longitude ds) = longitude tgt /\
     Some (ds_time ds) = time src /\
     var_dims ds = [Latitude; Longitude; Time] /\
     exists arr,
       h' !! var_data ds = Some (PyNdarray arr) /\
       shape arr = [length (ds_latitude ds); length (ds_longitude ds); length (ds_time ds)]) /\
  (forall ts lat lon t0 tts tlat tlon nm,
     valid_pair src tgt ts lat lon t0 tts tlat tlon ->
     squeeze_safe tlat tlon ->
     name src = Some nm ->
     exists ds arr,
       regrid_data uninit input target h = (Ok ds, h ++ [PyNdarray arr]) /\
       ds_latitude ds = tlat /\ ds_longitude ds = tlon /\ ds_time ds = ts).
Proof.
  intros Hin Htg. split.
  - intros ds h' Hrun.
    destruct (regrid_data_ok_inv uninit h h' input target ds Hrun)
      as (src' & tgt' & arr & nm & Hin' & Htg' & Hh' & Hnm & Hla & Hlo & Hti & Hds & Hs).
    assert (src' = src) by congruence. assert (tgt' = tgt) by congruence. subst src' tgt'.
    rewrite Hla, Hlo, Hti. repeat split; trivial.
    + rewrite Hds. reflexivity.
    + exists arr. split; [|assumption]. rewrite Hds, Hh'. cbn [var_data].
      rewrite lookup_app_r by lia. now rewrite Nat.sub_diag.
  - intros ts lat lon t0 tts tlat tlon nm Hv Hsq Hnm.
    destruct (regrid_data_valid uninit src tgt ts lat lon t0 tts tlat tlon Hv h input target nm
                Hsq Hnm Hin Htg) as (arr & Hrun & _).
    eexists. exists arr. split; [exact Hrun|]. repeat split.
Qed.

(** The coordinates of the result on the end-to-end scenario. *)
Lemma regrid_data_coordinates_witness :
  exists ds arr,
    regrid_data (fun _ => 0%float) 0 1 (scenario_store (Some "PM25_CMIP"%string))
      = (Ok ds, scenario_store (Some "PM25_CMIP"%string) ++ [PyNdarray arr]) /\
    (ds_latitude ds = [0; 1]%float /\ ds_longitude ds = [0; 1]%float /\
     ds_time ds = [0; 1]%Z) /\
    Some (ds_latitude ds) = latitude scenario_target /\
    Some (ds_longitude ds) = longitude scenario_target /\
    Some (ds_time ds) = time (scenario_source (Some "PM25_CMIP"%string)) /\
    var_dims ds = [Latitude; Longitude; Time] /\
    exists arr',
      (scenario_store (Some "PM25_CMIP"%string) ++ [PyNdarray arr]) !! var_data ds
        = Some (PyNdarray arr') /\
      shape arr' = [length (ds_latitude ds); length (ds_longitude ds); length (ds_time ds)].
Proof.
  destruct (regrid_data_coordinates (fun _ => 0%float)
              (scenario_store (Some "PM25_CMIP"%string)) 0 1 _ _ eq_refl eq_refl)
    as [Hany Hvalid].
  destruct (Hvalid _ _ _ _ _ _ _ "PM25_CMIP"%string
              (scenario_valid _) scenario_squeeze_safe eq_refl)
    as (ds & arr & Hrun & Hcoords).
  exists ds, arr. split; [exact Hrun|]. split; [exact Hcoords|].
  exact (Hany ds _ Hrun).
Defined.

(** ** C3: interpolation onto the source's own grid *)


(** The value at a knot is rounded: with latitudes 0 and 49 the slope
    from 0 to 1 is [1 / 49], and [1 / 49 * 49 + 0] is the binary64 number
    just below 1. No cell is missing, the grids are the same, and the
    result at latitude 49 is not the source's 1. *)
Lemma knot_value_is_rounded :
  latitude stretched_source = latitude stretched_target /\
  longitude stretched_source = longitude stretched_target /\
  item (data stretched_source) [0; 1; 0] = 1%float /\
  exists ds arr,
    regrid_data (fun _ => 0%float) 0 1
      [PyDataArray stretched_source; PyDataArray stretched_target]
      = (Ok ds, [PyDataArray stretched_source; PyDataArray stretched_target; PyNdarray arr]) /\
    (let c := item arr [1; 0; 0] in (c <? 1)%float = true) /\
    item arr [0; 0; 0] = 0%float.
Proof.
  repeat split; try reflexivity.
  eexists; eexists. split; [vm_compute; reflexivity|].
  split; vm_compute; reflexivity.
Qed.



(** ** C4: the end-to-end scenario *)

(** Claim C4. On the source with latitude [0, 1], longitude [0, 1], two
    timesteps t0, t1 and values [[1, 2], [3, 4]] and [[5, 6], [7, 8]], and
    the target on the same coordinates with one timestep and values
    [[1, 1], [NaN, 1]], [regrid_data] returns a result with latitude
    [0, 1], longitude [0, 1], time [t0, t1], values [[1, 2], [NaN, 4]] at
    t0 and [[5, 6], [NaN, 8]] at t1, under the source's name followed by
    _REGRIDDED. *)
Theorem end_to_end_scenario (uninit : list nat -> float) (nm : string) :
  exists arr,
    regrid_data uninit 0 1 (scenario_store (Some nm))
      = (Ok (mkDataset (nm ++ "_REGRIDDED")%string [Latitude; Longitude; Time] 2
                       [0; 1]%float [0; 1]%float [0; 1]%Z),
         scenario_store (Some nm) ++ [PyNdarray arr]) /\
    shape arr = [2; 2; 2] /\
    slab_at arr 0 = [[1; 2]; [nan; 4]]%float /\
    slab_at arr 1 = [[5; 6]; [nan; 8]]%float.
Proof.
  eexists. split; [vm_compute; reflexivity|].
  split; [reflexivity|]. split; vm_compute; reflexivity.
Qed.

(** ** C5: the errors of the call *)


(** A source whose latitudes are not monotonic (0, 2, 1) is accepted too:
    [interp] sorts the source along its coordinates first, and the rows of
    latitude 0 and 1 come out at the target's latitudes 0 and 1. *)
Lemma non_monotonic_source_is_sorted :
  exists ds arr,
    regrid_data (fun _ => 0%float) 0 1 [PyDataArray zigzag_source; PyDataArray full_target]
      = (Ok ds, [PyDataArray zigzag_source; PyDataArray full_target; PyNdarray arr]) /\
    slab_at arr 0 = [[1; 2]; [3; 4]]%float.
Proof.
  eexists; eexists. split; vm_compute; reflexivity.
Qed.




(** ** C6: destinations outside the source's bounds *)



(** ** C7: reordering the time axis *)

(** Claim C7. For every valid source/target pair on which the mask stays
    aligned and whose source is named, and every permutation [p] of the
    source's time axis (labels and slabs reordered together), [regrid_data]
    returns on the source and on the reordered source, and the result of
    the reordered source is the reordered result of the source: its time
    coordinate and its time slices are those of the original result taken
    in the order [p]. The cell the original result holds at the timestep
    of index q is computed from the source slab of index q and the
    reference slab alone ([masked_cell]). *)
Theorem time_permutation_commutes (uninit : list nat -> float) (h h' : heap)
    input target input' target' src tgt ts lat lon t0 tts tlat tlon nm (p : list nat) :
  h !! input = Some (PyDataArray src) ->
  h !! target = Some (PyDataArray tgt) ->
  h' !! input' = Some (PyDataArray (permute_time p src)) ->
  h' !! target' = Some (PyDataArray tgt) ->
  valid_pair src tgt ts lat lon t0 tts tlat tlon ->
  squeeze_safe tlat tlon ->
  name src = Some nm ->
  Permutation p (seq 0 (length ts)) ->
  exists ds arr ds' arr',
    regrid_data uninit input target h = (Ok ds, h ++ [PyNdarray arr]) /\
    regrid_data uninit input' target' h' = (Ok ds', h' ++ [PyNdarray arr']) /\
    ds_time ds' = map (fun q => nth q (ds_time ds) 0%Z) p /\
    shape arr' = shape arr /\
    forall i j q, i < length tlat -> j < length tlon -> q < length ts ->
      item arr' [i; j; q] = item arr [i; j; nth q p 0] /\
      item arr [i; j; q] = masked_cell src tgt lat lon tlat tlon q i j.
Proof.
  intros Hin Htg Hin' Htg' Hv Hsq Hnm Hp.
  pose proof (Permutation_length Hp) as Hlen. rewrite length_seq in Hlen.
  destruct (regrid_data_valid uninit src tgt ts lat lon t0 tts tlat tlon Hv h input target nm
              Hsq Hnm Hin Htg) as (arr & Hrun & Hs & Hit).
  destruct (regrid_data_valid uninit (permute_time p src) tgt _ lat lon t0 tts tlat tlon
              (permute_time_valid p _ _ _ _ _ _ _ _ _ Hv Hp) h' input' target' nm
              Hsq Hnm Hin' Htg') as (arr' & Hrun' & Hs' & Hit').
  eexists. exists arr. eexists. exists arr'.
  split; [exact Hrun|]. split; [exact Hrun'|]. split; [reflexivity|].
  rewrite length_map in Hs', Hit'. split; [congruence|].
  intros i j q Hi Hj Hq. split; [|exact (Hit i j q Hi Hj Hq)].
  rewrite Hit' by lia.
  rewrite Hit; try assumption.
  2: { apply permutation_nth_lt; [assumption|lia]. }
  unfold masked_cell, interpolated. f_equal. f_equal. f_equal.
  destruct Hv as [Hsrc _ _ _ _ _ _ _].
  unfold permute_time. cbn [data].
  apply (take_along_pick_along _ _ _ _ _ (lg_shape _ _ _ _ Hsrc)). lia.
Qed.

(** The two timesteps of the end-to-end scenario exchanged. *)
Lemma time_permutation_commutes_witness :
  exists ds arr ds' arr',
    regrid_data (fun _ => 0%float) 0 1 (scenario_store (Some "PM25_CMIP"%string))
      = (Ok ds, scenario_store (Some "PM25_CMIP"%string) ++ [PyNdarray arr]) /\
    regrid_data (fun _ => 0%float) 0 1
      [PyDataArray (permute_time [1; 0] (scenario_source (Some "PM25_CMIP"%string)));
       PyDataArray scenario_target]
      = (Ok ds', [PyDataArray (permute_time [1; 0] (scenario_source (Some "PM25_CMIP"%string)));
                  PyDataArray scenario_target] ++ [PyNdarray arr']) /\
    ds_time ds' = map (fun q => nth q (ds_time ds) 0%Z) [1; 0] /\
    shape arr' = shape arr /\
    forall i j q, i < 2 -> j < 2 -> q < 2 ->
      item arr' [i; j; q] = item arr [i; j; nth q [1; 0] 0] /\
      item arr [i; j; q]
      = masked_cell (scenario_source (Some "PM25_CMIP"%string)) scenario_target
          [0; 1]%float [0; 1]%float [0; 1]%float [0; 1]%float q i j.
Proof.
  exact (time_permutation_commutes (fun _ => 0%float)
           (scenario_store (Some "PM25_CMIP"%string))
           [PyDataArray (permute_time [1; 0] (scenario_source (Some "PM25_CMIP"%string)));
            PyDataArray scenario_target]
           0 1 0 1 _ _ _ _ _ _ _ _ _ "PM25_CMIP"%string [1; 0]
           eq_refl eq_refl eq_refl eq_refl
           (scenario_valid _) scenario_squeeze_safe eq_refl (perm_swap 0 1 [])).
Defined.

(** ** C8: the inputs are left as they were *)

(** Claim C8. After any call of [regrid_data], whether it returns or
    raises, every object of the store, among them the source and the
    target with their values, coordinates and names, is what it was before
    the call; the only effect on the store is at most one new array, the
    buffer of the result. *)
Theorem inputs_not_mutated (uninit : list nat -> float) (h : heap) input target :
  let h' := (regrid_data uninit input target h).2 in
  (forall l o, h !! l = Some o -> h' !! l = Some o) /\
  (h' = h \/ exists arr, h' = h ++ [PyNdarray arr]).
Proof.
  intros h'. pose proof (regrid_data_store uninit h input target) as Hst.
  fold h' in Hst. split; [|exact Hst].
  intros l o Hl. destruct Hst as [->|[arr ->]]; [assumption|].
  rewrite lookup_app_l; [assumption|]. eapply lookup_lt_Some; eauto.
Qed.

(** ** C9: the squeezed reference slab *)




(** ** C10: a source without a name *)

(** Claim C10. For every source whose name is unset (None), [regrid_data]
    raises instead of returning a result, whatever the target; and on a
    valid source/target pair on which the mask stays aligned, the error is
    the TypeError of the concatenation of the name with _REGRIDDED in the
    result assembly, raised after the buffer has been allocated and filled
    for every timestep. *)
Theorem unnamed_source_raises (uninit : list nat -> float) (h : heap) input target src :
  h !! input = Some (PyDataArray src) ->
  name src = None ->
  (exists e, (regrid_data uninit input target h).1 = Raise e) /\
  (forall tgt ts lat lon t0 tts tlat tlon,
      h !! target = Some (PyDataArray tgt) ->
      valid_pair src tgt ts lat lon t0 tts tlat tlon ->
      squeeze_safe tlat tlon ->
      exists arr,
        regrid_data uninit input target h = (Raise TypeError, h ++ [PyNdarray arr]) /\
        shape arr = [length tlat; length tlon; length ts]).
Proof.
  intros Hin Hnm. split.
  - destruct (regrid_data uninit input target h) as [[ds|e] h'] eqn:Hrun; [|eauto].
    destruct (regrid_data_ok_inv uninit h h' input target ds Hrun)
      as (src' & tgt & arr & nm & Hin' & _ & _ & Hnm' & _).
    congruence.
  - intros tgt ts lat lon t0 tts tlat tlon Htg Hv Hsq.
    destruct (regrid_pure_valid uninit src tgt ts lat lon t0 tts tlat tlon Hv (length h) Hsq)
      as (arr & Hp & Hs & _).
    exists arr. split; [|assumption].
    rewrite (regrid_data_run uninit input target src tgt h Hin Htg), Hp.
    cbn [fst snd mbind result_bind]. unfold finish. rewrite Hnm. reflexivity.
Qed.

(** The end-to-end scenario with the source's name unset. *)
Lemma unnamed_source_raises_witness :
  (exists e, (regrid_data (fun _ => 0%float) 0 1 (scenario_store None)).1 = Raise e) /\
  (exists arr,
      regrid_data (fun _ => 0%float) 0 1 (scenario_store None)
        = (Raise TypeError, scenario_store None ++ [PyNdarray arr]) /\
      shape arr = [2; 2; 2]).
Proof.
  pose proof (unnamed_source_raises (fun _ => 0%float) (scenario_store None) 0 1
                (scenario_source None) eq_refl eq_refl) as [H1 H2].
  split; [exact H1|].
  exact (H2 scenario_target _ _ _ _ _ _ _ eq_refl (scenario_valid None) scenario_squeeze_safe).
Defined.

(* ===================================================================== *)
(** * Further properties of [regrid_data] *)
(* ===================================================================== *)

(** What the code shows beyond the properties above: what the result is
    made of, what the call reads and what it never reads, and how it ends
    on the inputs at the edge of its domain. *)

(** ** The result variable (lines 60-74) *)

(** Property X2. Whenever [regrid_data] returns, the source has a name,
    the variable of the result is called by that name followed by
    _REGRIDDED, and its array is a new object: the reference held no object
    before the call and is neither of the two arguments. *)
Theorem result_is_a_new_named_variable (uninit : list nat -> float) (h h' : heap)
    input target ds :
  regrid_data uninit input target h = (Ok ds, h') ->
  exists src nm arr,
    h !! input = Some (PyDataArray src) /\
    name src = Some nm /\
    var_name ds = (nm ++ "_REGRIDDED")%string /\
    h !! var_data ds = None /\
    h' !! var_data ds = Some (PyNdarray arr) /\
    var_data ds <> input /\ var_data ds <> target.
Proof.
  intros Hrun.
  destruct (regrid_data_ok_inv uninit h h' input target ds Hrun)
    as (src & tgt & arr & nm & Hin & Htg & Hh' & Hnm & _ & _ & _ & Hds & _).
  exists src, nm, arr. split; [assumption|]. split; [assumption|].
  rewrite Hds. cbn [var_name var_data]. split; [reflexivity|].
  split; [apply lookup_ge_None; lia|].
  split; [rewrite Hh', lookup_app_r by lia; now rewrite Nat.sub_diag|].
  apply lookup_lt_Some in Hin, Htg. lia.
Qed.

(** The result variable of the end-to-end scenario. *)
Lemma result_is_a_new_named_variable_witness :
  exists ds h',
    regrid_data (fun _ => 0%float) 0 1 (scenario_store (Some "PM25_CMIP"%string)) = (Ok ds, h') /\
    exists src nm arr,
      scenario_store (Some "PM25_CMIP"%string) !! 0 = Some (PyDataArray src) /\
      name src = Some nm /\
      var_name ds = (nm ++ "_REGRIDDED")%string /\
      scenario_store (Some "PM25_CMIP"%string) !! var_data ds = None /\
      h' !! var_data ds = Some (PyNdarray arr) /\
      var_data ds <> 0 /\ var_data ds <> 1.
Proof.
  destruct (regrid_data_valid (fun _ => 0%float) _ _ _ _ _ _ _ _ _
              (scenario_valid (Some "PM25_CMIP"%string))
              (scenario_store (Some "PM25_CMIP"%string)) 0 1 "PM25_CMIP"%string
              scenario_squeeze_safe eq_refl eq_refl eq_refl) as (arr & Hrun & _).
  eexists. eexists. split; [exact Hrun|].
  exact (result_is_a_new_named_variable _ _ _ _ _ _ Hrun).
Defined.

(** ** What the call reads of the target (lines 38-40, 56) *)

Lemma long_target_valid nm :
  valid_pair (scenario_source nm) long_target
             [0; 1]%Z [0; 1]%float [0; 1]%float 0%Z [5; 9]%Z [0; 1]%float [0; 1]%float.
Proof.
  split; try (split; reflexivity); try discriminate.
  - repeat constructor; simpl; intuition discriminate.
  - simpl. intuition discriminate.
  - split; [discriminate|reflexivity].
  - split; [discriminate|reflexivity].
Qed.

(** Property X3. Of the target's payload only the slab of its first
    timestep is read: two targets on the same coordinates whose first slabs
    hold the same cells give the same result for the same source, whatever
    their other timesteps, their later slabs and their first dates are. *)
Theorem only_first_target_slab_is_read (uninit : list nat -> float) (h h' : heap)
    input target input' target' src tgt tgt' ts lat lon t0 tts t0' tts' tlat tlon nm :
  h !! input = Some (PyDataArray src) ->
  h !! target = Some (PyDataArray tgt) ->
  h' !! input' = Some (PyDataArray src) ->
  h' !! target' = Some (PyDataArray tgt') ->
  valid_pair src tgt ts lat lon t0 tts tlat tlon ->
  valid_pair src tgt' ts lat lon t0' tts' tlat tlon ->
  squeeze_safe tlat tlon ->
  name src = Some nm ->
  (forall i j, i < length tlat -> j < length tlon ->
     item (data tgt') [0; i; j] = item (data tgt) [0; i; j]) ->
  exists ds arr ds' arr',
    regrid_data uninit input target h = (Ok ds, h ++ [PyNdarray arr]) /\
    regrid_data uninit input' target' h' = (Ok ds', h' ++ [PyNdarray arr']) /\
    var_name ds' = var_name ds /\
    ds_latitude ds' = ds_latitude ds /\
    ds_longitude ds' = ds_longitude ds /\
    ds_time ds' = ds_time ds /\
    shape arr' = shape arr /\
    forall i j k, i < length tlat -> j < length tlon -> k < length ts ->
      item arr' [i; j; k] = item arr [i; j; k].
Proof.
  intros Hin Htg Hin' Htg' Hv Hv' Hsq Hnm Href.
  destruct (regrid_data_valid uninit src tgt ts lat lon t0 tts tlat tlon Hv h input target nm
              Hsq Hnm Hin Htg) as (arr & Hrun & Hs & Hit).
  destruct (regrid_data_valid uninit src tgt' ts lat lon t0' tts' tlat tlon Hv' h' input' target' nm
              Hsq Hnm Hin' Htg') as (arr' & Hrun' & Hs' & Hit').
  eexists. exists arr. eexists. exists arr'.
  split; [exact Hrun|]. split; [exact Hrun'|].
  cbn [var_name ds_latitude ds_longitude ds_time].
  repeat (split; [reflexivity|]). split; [congruence|].
  intros i j k Hi Hj Hk. rewrite Hit, Hit' by assumption.
  unfold masked_cell. now rewrite Href.
Qed.

(** The scenario's target and the same target with two more timesteps. *)
Lemma only_first_target_slab_is_read_witness :
  exists ds arr ds' arr',
    regrid_data (fun _ => 0%float) 0 1 (scenario_store (Some "PM25_CMIP"%string))
      = (Ok ds, scenario_store (Some "PM25_CMIP"%string) ++ [PyNdarray arr]) /\
    regrid_data (fun _ => 0%float) 0 1
      [PyDataArray (scenario_source (Some "PM25_CMIP"%string)); PyDataArray long_target]
      = (Ok ds', [PyDataArray (scenario_source (Some "PM25_CMIP"%string));
                  PyDataArray long_target] ++ [PyNdarray arr']) /\
    var_name ds' = var_name ds /\
    ds_latitude ds' = ds_latitude ds /\
    ds_longitude ds' = ds_longitude ds /\
    ds_time ds' = ds_time ds /\
    shape arr' = shape arr /\
    forall i j k, i < 2 -> j < 2 -> k < 2 ->
      item arr' [i; j; k] = item arr [i; j; k].
Proof.
  refine (only_first_target_slab_is_read (fun _ => 0%float)
            (scenario_store (Some "PM25_CMIP"%string))
            [PyDataArray (scenario_source (Some "PM25_CMIP"%string)); PyDataArray long_target]
            0 1 0 1 _ _ _ _ _ _ _ _ _ _ _ _ "PM25_CMIP"%string
            eq_refl eq_refl eq_refl eq_refl
            (scenario_valid _) (long_target_valid _) scenario_squeeze_safe eq_refl _).
  intros i j Hi Hj. simpl in Hi, Hj.
  destruct i as [|[|i]]; [| |lia]; (destruct j as [|[|j]]; [| |lia]); reflexivity.
Defined.

(** ** The buffer of [np.empty] (lines 43-45, 57) *)

(** Property X4. No cell of the returned array holds what [np.empty] left
    in the buffer: on a valid pair the same call on two buffers with
    different contents returns the same dataset and arrays that agree on
    every cell. *)
Theorem no_cell_left_uninitialised (uninit uninit' : list nat -> float) (h : heap)
    input target src tgt ts lat lon t0 tts tlat tlon nm :
  h !! input = Some (PyDataArray src) ->
  h !! target = Some (PyDataArray tgt) ->
  valid_pair src tgt ts lat lon t0 tts tlat tlon ->
  squeeze_safe tlat tlon ->
  name src = Some nm ->
  exists ds arr arr',
    regrid_data uninit input target h = (Ok ds, h ++ [PyNdarray arr]) /\
    regrid_data uninit' input target h = (Ok ds, h ++ [PyNdarray arr']) /\
    shape arr' = shape arr /\
    forall i j k, i < length tlat -> j < length tlon -> k < length ts ->
      item arr' [i; j; k] = item arr [i; j; k].
Proof.
  intros Hin Htg Hv Hsq Hnm.
  destruct (regrid_data_valid uninit src tgt ts lat lon t0 tts tlat tlon Hv h input target nm
              Hsq Hnm Hin Htg) as (arr & Hrun & Hs & Hit).
  destruct (regrid_data_valid uninit' src tgt ts lat lon t0 tts tlat tlon Hv h input target nm
              Hsq Hnm Hin Htg) as (arr' & Hrun' & Hs' & Hit').
  eexists. exists arr, arr'.
  split; [exact Hrun|]. split; [exact Hrun'|]. split; [congruence|].
  intros i j k Hi Hj Hk. now rewrite Hit, Hit'.
Qed.

(** The end-to-end scenario on a buffer of zeros and on a buffer of
    infinities. *)
Lemma no_cell_left_uninitialised_witness :
  exists ds arr arr',
    regrid_data (fun _ => 0%float) 0 1 (scenario_store (Some "PM25_CMIP"%string))
      = (Ok ds, scenario_store (Some "PM25_CMIP"%string) ++ [PyNdarray arr]) /\
    regrid_data (fun _ => infinity) 0 1 (scenario_store (Some "PM25_CMIP"%string))
      = (Ok ds, scenario_store (Some "PM25_CMIP"%string) ++ [PyNdarray arr']) /\
    shape arr' = shape arr /\
    forall i j k, i < 2 -> j < 2 -> k < 2 ->
      item arr' [i; j; k] = item arr [i; j; k].
Proof.
  exact (no_cell_left_uninitialised (fun _ => 0%float) (fun _ => infinity)
           (scenario_store (Some "PM25_CMIP"%string))
           0 1 _ _ _ _ _ _ _ _ _ "PM25_CMIP"%string eq_refl eq_refl
           (scenario_valid _) scenario_squeeze_safe eq_refl).
Defined.

(** ** A target without a reference slab (lines 38-40) *)



(** ** A source without a timestep (lines 43-48, 60-73) *)

Lemma indices_empty_axis n m : indices [n; m; 0] = [].
Proof.
  apply length_zero_iff_nil. rewrite length_indices. simpl. lia.
Qed.

(** Property X6. If the source has a name and a time coordinate with no
    timestep, the call returns on any labelled target: the loop body never
    runs, the dimensions, the coordinates and the payload of the source are
    not looked at, and the result has the target's latitude and longitude,
    an empty time axis and an array of shape (latitudes, longitudes, 0)
    with no cell. *)
Theorem source_without_timestep_returns_empty (uninit : list nat -> float) (h : heap)
    input target src tgt t0 tts tlat tlon nm :
  h !! input = Some (PyDataArray src) ->
  h !! target = Some (PyDataArray tgt) ->
  labeled_grid tgt (t0 :: tts) tlat tlon ->
  time src = Some [] ->
  name src = Some nm ->
  regrid_data uninit input target h
  = (Ok (mkDataset (nm ++ "_REGRIDDED")%string [Latitude; Longitude; Time]
                   (length h) tlat tlon []),
     h ++ [PyNdarray (NdArray [length tlat; length tlon; 0] [])]).
Proof.
  intros Hin Htg Hgrid Ht Hnm.
  rewrite (regrid_data_run uninit input target src tgt h Hin Htg).
  destruct (sel_time_first_label tgt t0 tts 0 (lg_time _ _ _ _ Hgrid))
    as (fdd & Hsel & Hla & Hlo).
  { now rewrite (lg_dims _ _ _ _ Hgrid). }
  unfold regrid_pure, prelude, get_time.
  rewrite (lg_time _ _ _ _ Hgrid). cbn [from_option mbind result_bind first_label head].
  rewrite Hsel. cbn [mbind result_bind].
  unfold get_latitude, get_longitude.
  rewrite Hla, Hlo, (lg_latitude _ _ _ _ Hgrid), (lg_longitude _ _ _ _ Hgrid), Ht.
  cbn [from_option mbind result_bind fill fst snd length].
  unfold finish, str_add, get_latitude, get_longitude, get_time.
  rewrite Hnm, (lg_latitude _ _ _ _ Hgrid), (lg_longitude _ _ _ _ Hgrid), Ht.
  cbn [from_option mbind result_bind].
  unfold empty, tabulate. rewrite indices_empty_axis. reflexivity.
Qed.

(** A source with an empty time axis and no spatial axis, regridded onto
    the scenario's target. *)
Lemma source_without_timestep_returns_empty_witness :
  regrid_data (fun _ => 0%float) 0 1 [PyDataArray bare_source; PyDataArray scenario_target]
  = (Ok (mkDataset "PM25_CMIP_REGRIDDED"%string [Latitude; Longitude; Time] 2
                   [0; 1]%float [0; 1]%float []),
     [PyDataArray bare_source; PyDataArray scenario_target] ++ [PyNdarray (NdArray [2; 2; 0] [])]).
Proof.
  exact (source_without_timestep_returns_empty (fun _ => 0%float)
           [PyDataArray bare_source; PyDataArray scenario_target] 0 1
           bare_source scenario_target 0%Z [] [0; 1]%float [0; 1]%float "PM25_CMIP"%string
           eq_refl eq_refl (vp_target _ _ _ _ _ _ _ _ _ (scenario_valid None)) eq_refl eq_refl).
Defined.

(** ** A repeated source timestamp (lines 48-57) *)









(** A repeated timestamp: the step and the loop. *)
Section Repeated.
Variable uninit : list nat -> float.
Variables (src tgt : DataArray) (ts : list Z) (lat lon : list float)
          (t0 : Z) (tts : list Z) (tlat tlon : list float).
Hypothesis source_grid : labeled_grid src ts lat lon.
Hypothesis target_grid : labeled_grid tgt (t0 :: tts) tlat tlon.
Hypothesis first_once : ~ In t0 tts.

Let fdd := mkDataArray (name tgt) [Latitude; Longitude] (Some [t0])
                       (Some tlat) (Some tlon) (take_along 0 0 (data tgt)).




Hypothesis latitudes : lat <> [] /\ has_duplicates lat = false.
Hypothesis longitudes : lon <> [] /\ has_duplicates lon = false.
Hypothesis target_latitudes : tlat <> [].
Hypothesis target_longitudes : tlon <> [].
Hypothesis aligned : squeeze_safe tlat tlon.





End Repeated.





(** ** A source axis with a single knot (line 50) *)

#[local] Open Scope float_scope.

(** [x - x] is a zero, or NaN when [x] is not finite. *)
Lemma sub_self x : x - x = nan \/ exists s, Prim2SF (x - x) = S754_zero s.
Proof.
  pose proof (sub_spec x x) as H. unfold SF64sub, SFsub in H.
  destruct (Prim2SF x) as [s|s| |s m e] eqn:E.
  - right. destruct s; eexists; exact H.
  - left. apply Prim2SF_inj. rewrite H, Prim2SF_nan. destruct s; reflexivity.
  - left. apply Prim2SF_inj. rewrite H, Prim2SF_nan. reflexivity.
  - right. rewrite Z.min_id, Z.sub_diag in H. eexists. exact H.
Qed.

Lemma zero_div_zero a b s s' :
  Prim2SF a = S754_zero s -> Prim2SF b = S754_zero s' -> a / b = nan.
Proof.
  intros Ha Hb. apply Prim2SF_inj. rewrite div_spec, Ha, Hb, Prim2SF_nan. reflexivity.
Qed.

Lemma slope_of_one_knot y x : (y - y) / (x - x) = nan.
Proof.
  destruct (sub_self x) as [->|[s Hx]]; [apply div_nan_r|].
  destruct (sub_self y) as [->|[s' Hy]]; [apply div_nan_l|].
  eapply zero_div_zero; eauto.
Qed.

#[local] Close Scope float_scope.

Lemma interp_cell_one_knot xs y v : length xs = 1 -> interp_cell xs y v = nan.
Proof.
  intros Hlen. destruct xs as [|x [|? ?]]; try discriminate.
  unfold interp_cell, neighbours, clip, py_index. cbn [length searchsorted].
  destruct (np_lt x v); cbn; unfold linear; rewrite slope_of_one_knot, mul_nan_l, add_nan_l;
    destruct (out_of_bounds [x] v); reflexivity.
Qed.

Lemma bilinear_one_knot lat lon a new_lat new_lon n m i j :
  shape a = [n; m] -> lat <> [] -> lon <> [] ->
  i < length new_lat -> j < length new_lon ->
  length lat = 1 \/ length lon = 1 ->
  item (bilinear lat lon a new_lat new_lon) [i; j] = nan.
Proof.
  intros Hs Hlat Hlon Hi Hj Hone. unfold bilinear.
  set (a' := pick_along 1 _ _).
  assert (Hs' : shape a' = [length (argsort lat); length (argsort lon)]).
  { unfold a'. simpl. rewrite Hs. reflexivity. }
  set (a1 := interp1d 0 _ _ a').
  assert (Hs1 : shape a1 = [length new_lat; length (argsort lon)]).
  { unfold a1, a'. simpl. rewrite Hs. reflexivity. }
  rewrite item_interp1d by (rewrite Hs1; now apply in_bounds_2).
  cbn [nth]. destruct Hone as [Hone|Hone].
  - apply interp_cell_nan_lo. cbn beta. cbn [insert list_insert].
    pose proof (neighbours_lt (sorted_coord lon) (nth j new_lon nan)
                  (sorted_coord_nonempty _ Hlon)) as [Hlo _].
    rewrite length_sorted_coord, <- length_argsort in Hlo.
    unfold a1. rewrite item_interp1d by (rewrite Hs'; now apply in_bounds_2).
    cbn [nth]. apply interp_cell_one_knot. now rewrite length_sorted_coord.
  - apply interp_cell_one_knot. now rewrite length_sorted_coord.
Qed.

Lemma single_latitude_valid :
  valid_pair single_latitude_source full_target
             [0]%Z [0]%float [0; 1]%float 0%Z [] [0; 1]%float [0; 1]%float.
Proof.
  split; try (split; reflexivity); try discriminate.
  - repeat constructor; simpl; intuition discriminate.
  - simpl. intuition.
  - split; [discriminate|reflexivity].
  - split; [discriminate|reflexivity].
Qed.

(** Property X8. A source with a single latitude, or a single longitude,
    regrids to a result that is missing everywhere: with one knot the two
    neighbours of any point are that knot, the slope of the line is 0 / 0,
    and every interpolated cell is NaN, also at the knot itself. *)
Theorem single_knot_axis_is_missing (uninit : list nat -> float) (h : heap) input target
    src tgt ts lat lon t0 tts tlat tlon nm :
  h !! input = Some (PyDataArray src) ->
  h !! target = Some (PyDataArray tgt) ->
  valid_pair src tgt ts lat lon t0 tts tlat tlon ->
  squeeze_safe tlat tlon ->
  name src = Some nm ->
  length lat = 1 \/ length lon = 1 ->
  exists ds arr,
    regrid_data uninit input target h = (Ok ds, h ++ [PyNdarray arr]) /\
    forall i j k, i < length tlat -> j < length tlon -> k < length ts ->
      isnan (item arr [i; j; k]) = true.
Proof.
  intros Hin Htg Hv Hsq Hnm Hone.
  destruct (regrid_data_valid uninit src tgt ts lat lon t0 tts tlat tlon Hv h input target nm
              Hsq Hnm Hin Htg) as (arr & Hrun & Hs & Hit).
  eexists. exists arr. split; [exact Hrun|].
  intros i j k Hi Hj Hk. rewrite Hit by assumption.
  unfold masked_cell, interpolated.
  destruct Hv as [Hsrc _ _ _ [Hlat _] [Hlon _] _ _].
  rewrite (bilinear_one_knot lat lon _ tlat tlon (length lat) (length lon)); try assumption.
  - now rewrite add_nan_l.
  - unfold take_along. rewrite (lg_shape _ _ _ _ Hsrc). reflexivity.
Qed.

(** A source with the single latitude 0, on the scenario's grid. *)
Lemma single_knot_axis_is_missing_witness :
  exists ds arr,
    regrid_data (fun _ => 0%float) 0 1
      [PyDataArray single_latitude_source; PyDataArray full_target]
      = (Ok ds, [PyDataArray single_latitude_source; PyDataArray full_target]
                  ++ [PyNdarray arr]) /\
    forall i j k, i < 2 -> j < 2 -> k < 1 ->
      isnan (item arr [i; j; k]) = true.
Proof.
  exact (single_knot_axis_is_missing (fun _ => 0%float)
           [PyDataArray single_latitude_source; PyDataArray full_target]
           0 1 _ _ _ _ _ _ _ _ _ "PM25_CMIP"%string eq_refl eq_refl
           single_latitude_valid scenario_squeeze_safe eq_refl (or_introl eq_refl)).
Defined.

(** ** A source stored north to south (line 50) *)

Lemma insert_sorted_last xs i l :
  (forall j, In j l -> np_lt (nth j xs nan) (nth i xs nan) = true) ->
  insert_sorted xs i l = l ++ [i].
Proof.
  induction l as [|j l IH]; intros H; simpl; [reflexivity|].
  rewrite (H j) by now left. f_equal. apply IH. intros j' Hj'. apply H. now right.
Qed.

Lemma argsort_decreasing_from xs : forall len start,
  decreasing xs -> start + len <= length xs ->
  fold_right (insert_sorted xs) [] (seq start len) = rev (seq start len).
Proof.
  induction len as [|len IH]; intros start Hdec Hle; simpl; [reflexivity|].
  rewrite IH by (assumption || lia).
  apply insert_sorted_last. intros j Hj.
  apply in_rev, in_seq in Hj. apply np_lt_of_ltb. apply Hdec; lia.
Qed.

Lemma argsort_decreasing xs : decreasing xs -> argsort xs = rev (seq 0 (length xs)).
Proof. intros H. unfold argsort. apply argsort_decreasing_from; [assumption|lia]. Qed.

Lemma sorted_coord_decreasing xs : decreasing xs -> sorted_coord xs = rev xs.
Proof.
  intros H. unfold sorted_coord. rewrite argsort_decreasing by assumption.
  rewrite map_rev. f_equal. apply map_nth_seq.
Qed.

Lemma increasing_rev xs : decreasing xs -> increasing (rev xs).
Proof.
  intros H p q Hpq Hq. rewrite length_rev in Hq.
  rewrite !rev_nth by lia. apply H; lia.
Qed.

Lemma nth_rev_seq n i : i < n -> nth i (rev (seq 0 n)) 0 = n - S i.
Proof.
  intros Hi. rewrite rev_nth by (rewrite length_seq; lia).
  rewrite length_seq, seq_nth by lia. lia.
Qed.

Lemma pick_along_seq_pick_along a n m R :
  shape a = [n; m] -> length R = n ->
  pick_along 0 (seq 0 n) (pick_along 0 R a) = pick_along 0 R a.
Proof.
  intros Hs HR. unfold pick_along at 1. 
  assert (Hs' : shape (pick_along 0 R a) = [n; m]).
  { unfold pick_along. cbn [shape tabulate]. rewrite Hs, HR. reflexivity. }
  rewrite Hs'. cbn [insert list_insert]. rewrite length_seq.
  unfold pick_along at 2. rewrite Hs, HR. cbn [insert list_insert].
  apply tabulate_ext. intros idx Hb.
  destruct (in_bounds_inv_2 _ _ _ Hb) as (i & j & -> & Hi & Hj).
  cbn [nth insert list_insert]. rewrite seq_nth by assumption. cbn [Nat.add].
  unfold pick_along. rewrite Hs, HR. cbn [insert list_insert].
  rewrite item_tabulate by now apply in_bounds_2.
  reflexivity.
Qed.

Lemma bilinear_flip lat lon a new_lat new_lon m :
  shape a = [length lat; m] -> decreasing lat ->
  bilinear (rev lat) lon (pick_along 0 (rev (seq 0 (length lat))) a) new_lat new_lon
  = bilinear lat lon a new_lat new_lon.
Proof.
  intros Hs Hdec. unfold bilinear.
  rewrite (sorted_coord_increasing (rev lat)) by now apply increasing_rev.
  rewrite (argsort_increasing (rev lat)) by now apply increasing_rev.
  rewrite (sorted_coord_decreasing lat), (argsort_decreasing lat) by assumption.
  rewrite length_rev.
  rewrite (pick_along_seq_pick_along a (length lat) m) by
    (assumption || now rewrite length_rev, length_seq).
  reflexivity.
Qed.

Lemma take_along_flip d T n m k R :
  shape d = [T; n; m] -> k < T -> length R = n -> (forall i, i < n -> nth i R 0 < n) ->
  take_along 0 k (pick_along 1 R d) = pick_along 0 R (take_along 0 k d).
Proof.
  intros Hs Hk HR Hlt.
  unfold take_along at 1.
  assert (Hs1 : shape (pick_along 1 R d) = [T; n; m]).
  { unfold pick_along. cbn [shape tabulate]. rewrite Hs, HR. reflexivity. }
  rewrite Hs1. cbn [delete list_delete].
  unfold pick_along at 2.
  assert (Hs2 : shape (take_along 0 k d) = [n; m]).
  { unfold take_along. rewrite Hs. reflexivity. }
  rewrite Hs2, HR. cbn [insert list_insert].
  apply tabulate_ext. intros idx Hb.
  destruct (in_bounds_inv_2 _ _ _ Hb) as (i & j & -> & Hi & Hj).
  cbn [insert_at firstn skipn app nth insert list_insert].
  unfold pick_along. rewrite Hs, HR. cbn [insert list_insert].
  rewrite item_tabulate by now apply in_bounds_3.
  cbn [nth insert list_insert].
  rewrite (item_take_along_0 _ k [nth i R 0; j] _ _ Hs); [reflexivity|].
  apply in_bounds_2; [now apply Hlt|assumption].
Qed.

Lemma flip_latitude_valid src tgt ts lat lon t0 tts tlat tlon :
  valid_pair src tgt ts lat lon t0 tts tlat tlon ->
  valid_pair (flip_latitude src) tgt ts (rev lat) lon t0 tts tlat tlon.
Proof.
  intros [[Hd Ht Hla Hlo Hs] Htgt Hnd Hfirst [Hl1 Hl2] Hlon Htl Hto].
  split; try assumption.
  - split; cbn; try assumption.
    + now rewrite Hla.
    + unfold pick_along. cbn [shape tabulate]. rewrite Hs. cbn [nth insert list_insert].
      now rewrite !length_rev, length_seq.
  - split.
    + intros E. apply Hl1. apply (f_equal (@rev float)) in E.
      now rewrite rev_involutive in E.
    + rewrite <- Hl2. apply has_duplicates_perm. symmetry. apply Permutation_rev.
Qed.

(** Property X9. A source stored with strictly decreasing latitudes (north
    to south) gives the same result as the same grid stored with its
    latitudes reversed (south to north): [interp] sorts the source along
    the coordinate before it interpolates. *)
Theorem descending_latitudes_are_sorted (uninit : list nat -> float) (h h' : heap)
    input target input' target' src tgt ts lat lon t0 tts tlat tlon nm :
  h !! input = Some (PyDataArray src) ->
  h !! target = Some (PyDataArray tgt) ->
  h' !! input' = Some (PyDataArray (flip_latitude src)) ->
  h' !! target' = Some (PyDataArray tgt) ->
  valid_pair src tgt ts lat lon t0 tts tlat tlon ->
  squeeze_safe tlat tlon ->
  name src = Some nm ->
  decreasing lat ->
  exists ds arr ds' arr',
    regrid_data uninit input target h = (Ok ds, h ++ [PyNdarray arr]) /\
    regrid_data uninit input' target' h' = (Ok ds', h' ++ [PyNdarray arr']) /\
    var_name ds' = var_name ds /\
    ds_latitude ds' = ds_latitude ds /\
    ds_longitude ds' = ds_longitude ds /\
    ds_time ds' = ds_time ds /\
    shape arr' = shape arr /\
    forall i j k, i < length tlat -> j < length tlon -> k < length ts ->
      item arr' [i; j; k] = item arr [i; j; k].
Proof.
  intros Hin Htg Hin' Htg' Hv Hsq Hnm Hdec.
  destruct (regrid_data_valid uninit src tgt ts lat lon t0 tts tlat tlon Hv h input target nm
              Hsq Hnm Hin Htg) as (arr & Hrun & Hs & Hit).
  destruct (regrid_data_valid uninit (flip_latitude src) tgt ts (rev lat) lon t0 tts tlat tlon
              (flip_latitude_valid _ _ _ _ _ _ _ _ _ Hv) h' input' target' nm
              Hsq Hnm Hin' Htg') as (arr' & Hrun' & Hs' & Hit').
  eexists. exists arr. eexists. exists arr'.
  split; [exact Hrun|]. split; [exact Hrun'|].
  cbn [var_name ds_latitude ds_longitude ds_time].
  repeat (split; [reflexivity|]). split; [congruence|].
  intros i j k Hi Hj Hk. rewrite Hit, Hit' by assumption.
  unfold masked_cell, interpolated. f_equal. f_equal.
  destruct Hv as [Hsrc _ _ _ _ _ _ _].
  pose proof (lg_shape _ _ _ _ Hsrc) as Hshape.
  unfold flip_latitude. cbn [data]. rewrite Hshape. cbn [nth].
  rewrite (take_along_flip (data src) (length ts) (length lat) (length lon) k).
  - apply (bilinear_flip lat lon _ tlat tlon (length lon)); [|assumption].
    unfold take_along. rewrite Hshape. reflexivity.
  - assumption.
  - assumption.
  - now rewrite length_rev, length_seq.
  - intros q Hq. rewrite nth_rev_seq by assumption. lia.
Qed.

Lemma descending_source_valid :
  valid_pair descending_source full_target
             [0; 1]%Z [1; 0]%float [0; 1]%float 0%Z [] [0; 1]%float [0; 1]%float.
Proof.
  split; try (split; [discriminate|reflexivity]); try discriminate.
  - split; reflexivity.
  - split; reflexivity.
  - repeat constructor; simpl; intuition discriminate.
  - intros [].
Qed.

Lemma decreasing_1_0 : decreasing [1; 0]%float.
Proof.
  intros p q Hpq Hq. simpl in Hq.
  destruct q as [|[|q]]; [lia| |lia]. destruct p as [|p]; [|lia]. reflexivity.
Qed.

(** The scenario's source stored north to south, and reversed. *)
Lemma descending_latitudes_are_sorted_witness :
  exists ds arr ds' arr',
    regrid_data (fun _ => 0%float) 0 1
      [PyDataArray descending_source; PyDataArray full_target]
      = (Ok ds, [PyDataArray descending_source; PyDataArray full_target] ++ [PyNdarray arr]) /\
    regrid_data (fun _ => 0%float) 0 1
      [PyDataArray (flip_latitude descending_source); PyDataArray full_target]
      = (Ok ds', [PyDataArray (flip_latitude descending_source); PyDataArray full_target]
                   ++ [PyNdarray arr']) /\
    var_name ds' = var_name ds /\
    ds_latitude ds' = ds_latitude ds /\
    ds_longitude ds' = ds_longitude ds /\
    ds_time ds' = ds_time ds /\
    shape arr' = shape arr /\
    forall i j k, i < 2 -> j < 2 -> k < 2 ->
      item arr' [i; j; k] = item arr [i; j; k].
Proof.
  exact (descending_latitudes_are_sorted (fun _ => 0%float)
           [PyDataArray descending_source; PyDataArray full_target]
           [PyDataArray (flip_latitude descending_source); PyDataArray full_target]
           0 1 0 1 _ _ _ _ _ _ _ _ _ "PM25_CMIP"%string
           eq_refl eq_refl eq_refl eq_refl
           descending_source_valid scenario_squeeze_safe eq_refl decreasing_1_0).
Defined.

(** ** The target grid cell by cell (lines 50-57) *)

Lemma interp_cell_ext xs y y' v :
  xs <> [] -> (forall k, k < length xs -> y k = y' k) ->
  interp_cell xs y v = interp_cell xs y' v.
Proof.
  intros Hne Hy. unfold interp_cell.
  pose proof (neighbours_lt xs v Hne) as [Hlo Hhi].
  destruct (neighbours xs v) as [lo hi]. cbn [fst snd] in *.
  now rewrite (Hy lo Hlo), (Hy hi Hhi).
Qed.





(** ** A source stored as (time, longitude, latitude) (lines 49-57) *)

Lemma sel_time_lonlat da ts lat lon k t :
  lonlat_grid da ts lat lon -> List.NoDup ts -> ts !! k = Some t ->
  sel_time da t = Ok (mkDataArray (name da) [Longitude; Latitude] (Some [t])
                        (Some lat) (Some lon) (take_along 0 k (data da))).
Proof.
  intros [Hd Ht Hla Hlo Hs] Hnd Hk. unfold sel_time, get_time, axis_of.
  rewrite Ht, Hd. cbn. unfold positions.
  rewrite (positions_from_unique ts 0 k t Hnd Hk). cbn.
  now rewrite Hla, Hlo.
Qed.

Lemma interp_lonlat nm tm lat lon a new_lat new_lon x y :
  new_lat <> [] -> new_lon <> [] -> lat <> [] -> lon <> [] ->
  has_duplicates lat = false -> has_duplicates lon = false ->
  shape a = [x; y] ->
  exists g,
    interp (mkDataArray nm [Longitude; Latitude] tm (Some lat) (Some lon) a) new_lat new_lon
    = Ok (mkDataArray nm [Longitude; Latitude] tm (Some new_lat) (Some new_lon) g) /\
    shape g = [length new_lon; length new_lat].
Proof.
  intros Hnlat Hnlon Hlat Hlon Hdlat Hdlon Hs.
  unfold interp, sortby, localize, nonempty, axis_of, get_latitude, get_longitude.
  cbn. fold (sorted_coord lat). fold (sorted_coord lon).
  rewrite !has_duplicates_sorted, Hdlat, Hdlon.
  destruct new_lat as [|? ?]; [congruence|].
  destruct new_lon as [|? ?]; [congruence|].
  pose proof (length_sorted_coord lat) as Ll.
  pose proof (length_sorted_coord lon) as Lo.
  destruct (sorted_coord lat) as [|? ?] eqn:El; [destruct lat; [congruence|discriminate]|].
  destruct (sorted_coord lon) as [|? ?] eqn:Eo; [destruct lon; [congruence|discriminate]|].
  cbn. eexists. split; [reflexivity|]. cbn. rewrite Hs. reflexivity.
Qed.

Lemma add_shape a b :
  match NumPy.add a b with
  | Ok r => broadcast_shapes (shape a) (shape b) = Some (shape r)
  | Raise e => e = BroadcastError
  end.
Proof.
  unfold NumPy.add. destruct (broadcast_shapes (shape a) (shape b)); reflexivity.
Qed.

Lemma setitem_last_rejected arr i v :
  i < List.last (shape arr) 0 ->
  broadcast_shapes (strip_leading_ones (length (removelast (shape arr))) (shape v))
                   (removelast (shape arr)) <> Some (removelast (shape arr)) ->
  setitem_last arr i v = Raise BroadcastError.
Proof.
  intros Hi Hb. unfold setitem_last.
  destruct (Nat.leb_spec (List.last (shape arr) 0) i); [lia|].
  unfold broadcast_to. cbn [shape].
  destruct (broadcast_shapes _ _) as [s|]; [|reflexivity].
  destruct (decide (s = removelast (shape arr))) as [->|]; [congruence|reflexivity].
Qed.

(** The shapes of a slab in (longitude, latitude) order, of the squeezed
    reference slab and of the slot in (latitude, longitude) order: the sum
    or the store fails as soon as the two lengths differ. *)
Lemma transposed_shapes n m :
  n <> m ->
  match broadcast_shapes [m; n] (List.filter (fun k => negb (k =? 1)) [n; m]) with
  | Some s => length s = 2 /\
              broadcast_shapes (strip_leading_ones 2 s) [n; m] <> Some [n; m]
  | None => True
  end.
Proof.
  intros Hnm. unfold broadcast_shapes.
  destruct n as [|[|n]], m as [|[|m]]; try lia; simpl; rewrite ?Nat.eqb_refl; simpl;
    try exact I; try (split; [reflexivity|discriminate]).
  all: destruct (Nat.eqb_spec n m) as [->|Hne]; [lia|]; simpl; try exact I.
  destruct (m =? n); exact I.
Qed.

(** The first timestep of a source stored as (time, longitude, latitude). *)
Section Transposed.
Variable uninit : list nat -> float.
Variables (src tgt : DataArray) (t : Z) (ts : list Z) (lat lon : list float)
          (t0 : Z) (tts : list Z) (tlat tlon : list float).
Hypothesis source_grid : lonlat_grid src (t :: ts) lat lon.
Hypothesis target_grid : labeled_grid tgt (t0 :: tts) tlat tlon.
Hypothesis source_times : List.NoDup (t :: ts).
Hypothesis first_once : ~ In t0 tts.
Hypothesis latitudes : lat <> [] /\ has_duplicates lat = false.
Hypothesis longitudes : lon <> [] /\ has_duplicates lon = false.
Hypothesis target_latitudes : tlat <> [].
Hypothesis target_longitudes : tlon <> [].
Hypothesis not_square : length tlat <> length tlon.

Let fdd := mkDataArray (name tgt) [Latitude; Longitude] (Some [t0])
                       (Some tlat) (Some tlon) (take_along 0 0 (data tgt)).

Lemma regrid_step_transposed arr i K :
  shape arr = [length tlat; length tlon; K] -> i < K ->
  match regrid_step src fdd tlat tlon t with
  | Ok v => setitem_last arr i v = Raise BroadcastError
  | Raise e => e = BroadcastError
  end.
Proof.
  intros Harr Hi. destruct latitudes as [Hl1 Hl2], longitudes as [Ho1 Ho2].
  unfold regrid_step.
  rewrite (sel_time_lonlat _ _ _ _ 0 t source_grid source_times eq_refl).
  cbn [mbind result_bind].
  destruct (interp_lonlat (name src) (Some [t]) lat lon (take_along 0 0 (data src))
              tlat tlon (length lon) (length lat)) as (g & Hg & Hsg); try assumption.
  { unfold take_along. rewrite (ll_shape _ _ _ _ source_grid). reflexivity. }
  rewrite Hg. cbn [mbind result_bind].
  assert (Href : shape (take_along 0 0 (data tgt)) = [length tlat; length tlon]).
  { unfold take_along. rewrite (lg_shape _ _ _ _ target_grid). reflexivity. }
  unfold add_raw. cbn [data fdd dims].
  pose proof (add_shape g (scalar_mul 0 (squeeze (take_along 0 0 (data tgt))))) as Hadd.
  destruct (NumPy.add g _) as [r|e]; cbn [mbind result_bind]; [|assumption].
  cbn [shape scalar_mul squeeze] in Hadd. rewrite Hsg, Href in Hadd.
  pose proof (transposed_shapes _ _ not_square) as Hsh. rewrite Hadd in Hsh.
  destruct Hsh as [Hlen Hrej]. rewrite Hlen. cbn.
  apply setitem_last_rejected; rewrite Harr; cbn [removelast List.last length];
    assumption.
Qed.

Lemma regrid_pure_transposed r :
  regrid_pure uninit src tgt r
  = (Raise BroadcastError,
     Some (empty uninit [length tlat; length tlon; S (length ts)])).
Proof.
  unfold regrid_pure, prelude, get_time.
  rewrite (lg_time _ _ _ _ target_grid). cbn.
  rewrite (sel_time_first _ _ _ _ _ target_grid first_once). cbn.
  rewrite (ll_time _ _ _ _ source_grid). cbn [from_option mbind result_bind length fill].
  fold fdd.
  pose proof (regrid_step_transposed
                (empty uninit [length tlat; length tlon; S (length ts)]) 0 _
                eq_refl ltac:(lia)) as H.
  destruct (regrid_step src fdd tlat tlon t) as [v|e].
  - rewrite H. reflexivity.
  - subst e. reflexivity.
Qed.

End Transposed.

Lemma lonlat_source_grid : lonlat_grid lonlat_source [0]%Z [0; 1]%float [0; 1; 2]%float.
Proof. split; reflexivity. Qed.

Lemma wide_target_grid : labeled_grid wide_target [0]%Z [0; 1]%float [0; 1; 2]%float.
Proof. split; reflexivity. Qed.

(** Property X11. The payload must be stored with latitude before
    longitude: for a source stored as (time, longitude, latitude), with at
    least one timestep, and a target with a number of latitudes other than
    its number of longitudes, the interpolated slab has the shape
    (longitudes, latitudes), the mask or the store of lines 56-57 works by
    position, and the call raises after it has allocated the buffer. *)
Theorem longitude_first_source_raises (uninit : list nat -> float) (h : heap)
    input target src tgt t ts lat lon t0 tts tlat tlon :
  h !! input = Some (PyDataArray src) ->
  h !! target = Some (PyDataArray tgt) ->
  lonlat_grid src (t :: ts) lat lon ->
  labeled_grid tgt (t0 :: tts) tlat tlon ->
  List.NoDup (t :: ts) ->
  ~ In t0 tts ->
  lat <> [] /\ has_duplicates lat = false ->
  lon <> [] /\ has_duplicates lon = false ->
  tlat <> [] -> tlon <> [] ->
  length tlat <> length tlon ->
  exists arr,
    regrid_data uninit input target h = (Raise BroadcastError, h ++ [PyNdarray arr]).
Proof.
  intros Hin Htg Hsrc Htgt Hnd Hfirst Hlat Hlon Htlat Htlon Hsq.
  eexists.
  rewrite (regrid_data_run uninit input target src tgt h Hin Htg).
  rewrite (regrid_pure_transposed uninit src tgt t ts lat lon t0 tts tlat tlon
             Hsrc Htgt Hnd Hfirst Hlat Hlon Htlat Htlon Hsq (length h)).
  reflexivity.
Qed.

(** A source stored as (time, longitude, latitude) and a target of two
    latitudes and three longitudes. *)
Lemma longitude_first_source_raises_witness :
  exists arr,
    regrid_data (fun _ => 0%float) 0 1 [PyDataArray lonlat_source; PyDataArray wide_target]
    = (Raise BroadcastError,
       [PyDataArray lonlat_source; PyDataArray wide_target] ++ [PyNdarray arr]).
Proof.
  refine (longitude_first_source_raises (fun _ => 0%float)
            [PyDataArray lonlat_source; PyDataArray wide_target] 0 1
            lonlat_source wide_target 0%Z [] [0; 1]%float [0; 1; 2]%float
            0%Z [] [0; 1]%float [0; 1; 2]%float
            eq_refl eq_refl lonlat_source_grid wide_target_grid _ (fun H => H)
            (conj _ eq_refl) (conj _ eq_refl) _ _ _); try discriminate.
  repeat constructor. intros [].
Defined.

Lemma interp_lonlat_eq nm tm lat lon a new_lat new_lon :
  new_lat <> [] -> new_lon <> [] -> lat <> [] -> lon <> [] ->
  has_duplicates lat = false -> has_duplicates lon = false ->
  interp (mkDataArray nm [Longitude; Latitude] tm (Some lat) (Some lon) a) new_lat new_lon
  = Ok (mkDataArray nm [Longitude; Latitude] tm (Some new_lat) (Some new_lon)
          (bilinear_lonlat lat lon a new_lat new_lon)).
Proof.
  intros Hnlat Hnlon Hlat Hlon Hdlat Hdlon.
  unfold interp, sortby, localize, nonempty, axis_of, get_latitude, get_longitude.
  cbn. fold (sorted_coord lat). fold (sorted_coord lon).
  rewrite !has_duplicates_sorted, Hdlat, Hdlon.
  destruct new_lat as [|? ?]; [congruence|].
  destruct new_lon as [|? ?]; [congruence|].
  pose proof (length_sorted_coord lat) as Ll.
  pose proof (length_sorted_coord lon) as Lo.
  destruct (sorted_coord lat) as [|? ?] eqn:El; [destruct lat; [congruence|discriminate]|].
  destruct (sorted_coord lon) as [|? ?] eqn:Eo; [destruct lon; [congruence|discriminate]|].
  cbn. rewrite <- El, <- Eo. reflexivity.
Qed.

Lemma nth_argsort_lt xs k : k < length xs -> nth k (argsort xs) 0 < length xs.
Proof.
  intros Hk.
  assert (Hin : In (nth k (argsort xs) 0) (argsort xs)).
  { apply nth_In. now rewrite length_argsort. }
  eapply Permutation_in in Hin; [|apply argsort_perm].
  apply in_seq in Hin. lia.
Qed.

(** The slab interpolated in (longitude, latitude) order is the transpose
    of the slab interpolated in (latitude, longitude) order. *)
Lemma bilinear_lonlat_transposed lat lon a b new_lat new_lon i j :
  shape a = [length lon; length lat] ->
  shape b = [length lat; length lon] ->
  (forall p q, p < length lat -> q < length lon -> item b [p; q] = item a [q; p]) ->
  lat <> [] -> lon <> [] ->
  i < length new_lat -> j < length new_lon ->
  item (bilinear_lonlat lat lon a new_lat new_lon) [j; i]
  = item (bilinear lat lon b new_lat new_lon) [i; j].
Proof.
  intros Ha Hb Hab Hlat Hlon Hi Hj. unfold bilinear_lonlat, bilinear.
  set (a' := pick_along 0 (argsort lon) (pick_along 1 (argsort lat) a)).
  set (b' := pick_along 1 (argsort lon) (pick_along 0 (argsort lat) b)).
  assert (Hsa' : shape a' = [length (argsort lon); length (argsort lat)]).
  { unfold a'. simpl. rewrite Ha. reflexivity. }
  assert (Hsb' : shape b' = [length (argsort lat); length (argsort lon)]).
  { unfold b'. simpl. rewrite Hb. reflexivity. }
  set (a1 := interp1d 1 _ new_lat a').
  set (b1 := interp1d 0 _ new_lat b').
  assert (Hsa1 : shape a1 = [length (argsort lon); length new_lat]).
  { unfold a1, interp1d. cbn [shape tabulate]. rewrite Hsa'. reflexivity. }
  assert (Hsb1 : shape b1 = [length new_lat; length (argsort lon)]).
  { unfold b1, interp1d. cbn [shape tabulate]. rewrite Hsb'. reflexivity. }
  rewrite !item_interp1d by
    (first [rewrite Hsa1 | rewrite Hsb1]; now apply in_bounds_2).
  cbn [nth].
  apply interp_cell_ext; [now apply sorted_coord_nonempty|].
  intros k Hk. rewrite length_sorted_coord in Hk.
  cbn beta. cbn [insert list_insert].
  unfold a1, b1.
  rewrite !item_interp1d by
    (first [rewrite Hsa' | rewrite Hsb']; apply in_bounds_2; rewrite ?length_argsort; assumption).
  cbn [nth insert list_insert].
  apply interp_cell_ext; [now apply sorted_coord_nonempty|].
  intros k' Hk'. rewrite length_sorted_coord in Hk'.
  cbn beta.
  unfold a', b', pick_along. rewrite Ha, Hb. cbn [shape tabulate insert list_insert].
  rewrite !item_tabulate by (apply in_bounds_2; rewrite length_argsort; assumption).
  cbn [nth insert list_insert].
  rewrite !item_tabulate by
    (apply in_bounds_2; rewrite ?length_argsort; try assumption; now apply nth_argsort_lt).
  cbn [nth insert list_insert].
  symmetry. apply Hab; now apply nth_argsort_lt.
Qed.

Lemma transpose_latlon_slab src ts lat lon k p q :
  lonlat_grid src ts lat lon -> k < length ts -> p < length lat -> q < length lon ->
  item (take_along 0 k (data (transpose_latlon src))) [p; q]
  = item (take_along 0 k (data src)) [q; p].
Proof.
  intros Hg Hk Hp Hq. pose proof (ll_shape _ _ _ _ Hg) as Hs.
  unfold transpose_latlon. cbn [data]. rewrite Hs.
  rewrite (item_take_along_0 _ k [p; q] (length ts) [length lat; length lon])
    by (reflexivity || now apply in_bounds_2).
  rewrite item_tabulate by now apply in_bounds_3.
  symmetry. apply (item_take_along_0 _ k [q; p] _ _ Hs). now apply in_bounds_2.
Qed.

Section LongitudeFirst.
Variable uninit : list nat -> float.
Variables (src tgt : DataArray) (ts : list Z) (lat lon : list float)
          (t0 : Z) (tts : list Z) (tlat tlon : list float).
Hypothesis source_grid : lonlat_grid src ts lat lon.
Hypothesis target_grid : labeled_grid tgt (t0 :: tts) tlat tlon.
Hypothesis source_times : List.NoDup ts.
Hypothesis first_once : ~ In t0 tts.
Hypothesis latitudes : lat <> [] /\ has_duplicates lat = false.
Hypothesis longitudes : lon <> [] /\ has_duplicates lon = false.
Hypothesis target_latitudes : tlat <> [].
Hypothesis target_longitudes : tlon <> [].
Hypothesis square : length tlat = length tlon.

Let fdd := mkDataArray (name tgt) [Latitude; Longitude] (Some [t0])
                       (Some tlat) (Some tlon) (take_along 0 0 (data tgt)).

Lemma regrid_step_lonlat k t :
  ts !! k = Some t ->
  exists v, regrid_step src fdd tlat tlon t = Ok v /\
    shape v = [length tlat; length tlon] /\
    forall i j, i < length tlat -> j < length tlon -> item v [i; j] = transposed_cell src tgt lat lon tlat tlon k i j.
Proof.
  intros Hk. destruct latitudes as [Hl1 Hl2], longitudes as [Ho1 Ho2].
  pose proof (lookup_lt_Some _ _ _ Hk) as Hklt.
  unfold regrid_step.
  rewrite (sel_time_lonlat _ _ _ _ k t source_grid source_times Hk).
  cbn [mbind result_bind].
  rewrite interp_lonlat_eq by assumption. cbn [mbind result_bind].
  set (g := bilinear_lonlat _ _ _ _ _).
  assert (Hg : shape g = [length tlat; length tlon]).
  { unfold g, bilinear_lonlat, interp1d, pick_along, take_along.
    cbn [shape tabulate]. rewrite (ll_shape _ _ _ _ source_grid).
    cbn [delete list_delete insert list_insert]. now rewrite square. }
  assert (Href : shape (take_along 0 0 (data tgt)) = [length tlat; length tlon]).
  { unfold take_along. rewrite (lg_shape _ _ _ _ target_grid). reflexivity. }
  destruct (mask_add g (take_along 0 0 (data tgt)) _ _ Hg Href ltac:(lia))
    as (r & Hr & Hsr & Hit).
  unfold add_raw. cbn [data fdd]. rewrite Hr. cbn [mbind result_bind].
  rewrite Hsr. cbn [length Nat.eqb dims]. eexists. split; [reflexivity|]. split; [assumption|].
  intros i j Hi Hj. rewrite Hit by assumption. unfold transposed_cell. f_equal.
  - unfold g, interpolated.
    apply (bilinear_lonlat_transposed lat lon _ _ tlat tlon j i); try assumption; try lia.
    + unfold take_along. rewrite (ll_shape _ _ _ _ source_grid). reflexivity.
    + unfold take_along, transpose_latlon. cbn [data shape tabulate].
      rewrite (ll_shape _ _ _ _ source_grid). reflexivity.
    + intros p q Hp Hq. now apply (transpose_latlon_slab src ts lat lon).
  - f_equal. apply (item_take_along_0 _ 0 [i; j] _ _ (lg_shape _ _ _ _ target_grid)).
    now apply in_bounds_2.
Qed.

Lemma regrid_pure_lonlat r nm :
  name src = Some nm ->
  exists arr,
    regrid_pure uninit src tgt r
      = (Ok (mkDataset (nm ++ "_REGRIDDED")%string [Latitude; Longitude; Time] r tlat tlon ts),
         Some arr) /\
    shape arr = [length tlat; length tlon; length ts] /\
    forall i j k, i < length tlat -> j < length tlon -> k < length ts ->
      item arr [i; j; k] = transposed_cell src tgt lat lon tlat tlon k i j.
Proof.
  intros Hnm.
  destruct (fill_ok src fdd tlat tlon (length tlat) (length tlon) (length ts)
              (transposed_cell src tgt lat lon tlat tlon) ts 0 (empty uninit [length tlat; length tlon; length ts]))
    as (arr & Hf & Hs & Hit).
  - reflexivity.
  - lia.
  - intros q t Hq. now apply regrid_step_lonlat.
  - exists arr. split; [|split; [assumption|]].
    + unfold regrid_pure, prelude, get_time.
      rewrite (lg_time _ _ _ _ target_grid). cbn.
      rewrite (sel_time_first _ _ _ _ _ target_grid first_once). cbn.
      rewrite (ll_time _ _ _ _ source_grid). cbn [from_option mbind result_bind].
      fold fdd. rewrite Hf. cbn [mbind result_bind].
      unfold finish, str_add, get_latitude, get_longitude, get_time.
      rewrite Hnm, (lg_latitude _ _ _ _ target_grid), (lg_longitude _ _ _ _ target_grid),
        (ll_time _ _ _ _ source_grid). reflexivity.
    + intros i j k Hi Hj Hk. rewrite Hit by assumption.
      destruct (Nat.ltb_spec k (0 + length ts)); [reflexivity|lia].
Qed.

End LongitudeFirst.

Lemma lonlat_scenario_source_grid :
  lonlat_grid lonlat_scenario_source [0; 1]%Z [0; 1]%float [0; 1]%float.
Proof. split; reflexivity. Qed.

(** Property X12. For a source stored as (time, longitude, latitude) and
    a target with as many latitudes as longitudes the call returns, and the
    slabs are stored transposed: the result cell of index (i, j) holds the
    value interpolated at the latitude of index j and the longitude of
    index i, plus zero times the reference cell (i, j), under the target's
    latitude and longitude coordinates. *)
Theorem longitude_first_source_is_stored_transposed (uninit : list nat -> float) (h : heap)
    input target src tgt ts lat lon t0 tts tlat tlon nm :
  h !! input = Some (PyDataArray src) ->
  h !! target = Some (PyDataArray tgt) ->
  lonlat_grid src ts lat lon ->
  labeled_grid tgt (t0 :: tts) tlat tlon ->
  List.NoDup ts ->
  ~ In t0 tts ->
  lat <> [] /\ has_duplicates lat = false ->
  lon <> [] /\ has_duplicates lon = false ->
  tlat <> [] -> tlon <> [] ->
  length tlat = length tlon ->
  name src = Some nm ->
  exists ds arr,
    regrid_data uninit input target h = (Ok ds, h ++ [PyNdarray arr]) /\
    ds_latitude ds = tlat /\ ds_longitude ds = tlon /\
    shape arr = [length tlat; length tlon; length ts] /\
    forall i j k, i < length tlat -> j < length tlon -> k < length ts ->
      item arr [i; j; k] = transposed_cell src tgt lat lon tlat tlon k i j.
Proof.
  intros Hin Htg Hsrc Htgt Hnd Hfirst Hlat Hlon Htlat Htlon Hsq Hnm.
  destruct (regrid_pure_lonlat uninit src tgt ts lat lon t0 tts tlat tlon
              Hsrc Htgt Hnd Hfirst Hlat Hlon Htlat Htlon Hsq (length h) nm Hnm)
    as (arr & Hp & Hs & Hit).
  eexists. exists arr. split; [|split; [|split; [|split]]].
  - rewrite (regrid_data_run uninit input target src tgt h Hin Htg), Hp. reflexivity.
  - reflexivity.
  - reflexivity.
  - assumption.
  - exact Hit.
Qed.

(** The scenario's source stored as (time, longitude, latitude). *)
Lemma longitude_first_source_is_stored_transposed_witness :
  exists ds arr,
    regrid_data (fun _ => 0%float) 0 1
      [PyDataArray lonlat_scenario_source; PyDataArray full_target]
    = (Ok ds, [PyDataArray lonlat_scenario_source; PyDataArray full_target]
                ++ [PyNdarray arr]) /\
    ds_latitude ds = [0; 1]%float /\ ds_longitude ds = [0; 1]%float /\
    shape arr = [2; 2; 2] /\
    forall i j k, i < 2 -> j < 2 -> k < 2 ->
      item arr [i; j; k]
      = transposed_cell lonlat_scenario_source full_target
          [0; 1]%float [0; 1]%float [0; 1]%float [0; 1]%float k i j.
Proof.
  refine (longitude_first_source_is_stored_transposed (fun _ => 0%float)
            [PyDataArray lonlat_scenario_source; PyDataArray full_target] 0 1
            lonlat_scenario_source full_target
            [0; 1]%Z [0; 1]%float [0; 1]%float 0%Z [] [0; 1]%float [0; 1]%float
            "PM25_CMIP"%string
            eq_refl eq_refl lonlat_scenario_source_grid
            (vp_target _ _ _ _ _ _ _ _ _ (full_target_valid None)) _ (fun H => H)
            (conj _ eq_refl) (conj _ eq_refl) _ _ eq_refl eq_refl); try discriminate.
  repeat constructor; simpl; intuition discriminate.
Defined.
